(** * CodeCrawl: a verification development for [index.js]

    The program walks a directory tree, decides which files are in scope
    ([isValidFile]), measures each of them line by line ([getFileMetrics]),
    sums the measures bottom-up ([processDirectory]) and derives per-file
    averages ([printMetrics]).

    The embedding is shallow.  JavaScript strings are lists of UTF-16 code
    units, the [fs] and [path] modules of the platform are records of
    functions, exceptions are an error monad, the [forEach] loop with its
    captured counters is a fold with an explicit accumulator, and the
    recursion of [processDirectory] is bounded by fuel.  Counters are
    natural numbers: a JavaScript number represents every integer below
    2^53 exactly, and no count of lines or characters gets near that. *)

From Stdlib Require Import List NArith ZArith Arith Lia Bool String Ascii.
From Stdlib Require Import Permutation.
From Stdlib Require Import Floats.
Import ListNotations.

(* ===================================================================== *)
(** ** JavaScript strings *)
(* ===================================================================== *)

Module JsString.

  (** A string value is a finite sequence of 16-bit code units. *)
Definition t : Type := list N.

  (** String literals of the source, written as ASCII text. *)
Definition lit (s : string) : t := map N_of_ascii (list_ascii_of_string s).

  (** [a === b] on strings. *)
Fixpoint eqb (a b : t) : bool :=
    match a, b with
    | [], [] => true
    | x :: a', y :: b' => N.eqb x y && eqb a' b'
    | _, _ => false
    end.

  (** [s.length] *)
Definition length (s : t) : nat := List.length s.

  (** [s.startsWith(p)] *)
Fixpoint startsWith (s p : t) : bool :=
    match p, s with
    | [], _ => true
    | _ :: _, [] => false
    | y :: p', x :: s' => N.eqb x y && startsWith s' p'
    end.

  (** [s.endsWith(p)] *)
Definition endsWith (s p : t) : bool := startsWith (rev s) (rev p).

  (** [s.includes(p)] *)
Fixpoint includes (s p : t) : bool :=
    startsWith s p ||
    match s with
    | [] => false
    | _ :: s' => includes s' p
    end.

  (** The code units removed by [trim]: ECMAScript's WhiteSpace and
      LineTerminator productions (TAB, LF, VT, FF, CR, SP, NBSP, U+1680,
      U+2000..U+200A, U+2028, U+2029, U+202F, U+205F, U+3000, U+FEFF). *)
Definition isWhiteSpace (c : N) : bool :=
    ((9 <=? c) && (c <=? 13) || (c =? 32) || (c =? 160) || (c =? 5760)
     || (8192 <=? c) && (c <=? 8202) || (c =? 8232) || (c =? 8233)
     || (c =? 8239) || (c =? 8287) || (c =? 12288) || (c =? 65279))%N.

Fixpoint trimStart (s : t) : t :=
    match s with
    | [] => []
    | c :: s' => if isWhiteSpace c then trimStart s' else s
    end.

Definition trimEnd (s : t) : t := rev (trimStart (rev s)).

  (** [s.trim()] *)
Definition trim (s : t) : t := trimEnd (trimStart s).

  (** [s.split(sep)] for a separator of one code unit.  The result is
      never empty: the empty string splits into one empty piece. *)
Fixpoint split (sep : N) (s : t) : list t :=
    match s with
    | [] => [[]]
    | c :: s' =>
        if N.eqb c sep then [] :: split sep s'
        else match split sep s' with
             | [] => [[c]]
             | piece :: rest => (c :: piece) :: rest
             end
    end.

  (** [pieces.join(sep)] for a separator of one code unit. *)
Fixpoint join (sep : N) (pieces : list t) : t :=
    match pieces with
    | [] => []
    | [p] => p
    | p :: rest => p ++ sep :: join sep rest
    end.

  (** Truthiness of a string: [!!s]. *)
Definition truthy (s : t) : bool :=
    match s with [] => false | _ :: _ => true end.

End JsString.

Definition jsstring : Type := JsString.t.
Notation "'js' s" := (JsString.lit s%string) (at level 1, s at level 0, only parsing).

(** Line feed, the separator of [split('\n')] and [join('\n')]. *)
Definition LF : N := 10.

(* ===================================================================== *)
(** ** Exceptions *)
(* ===================================================================== *)

(** The system errors that the [fs] calls raise. *)
Inductive error : Type := ENOENT | EACCES | ENOTDIR | EISDIR | EIO.

(** The outcome of running a piece of the program: a value, a thrown
    error, or (for the fuel-bounded recursion only) fuel running out. *)
Inductive result (A : Type) : Type :=
| Ok (a : A)
| Throw (e : error)
| OutOfFuel.

Arguments Ok {A} a.
Arguments Throw {A} e.
Arguments OutOfFuel {A}.

Definition bind {A B : Type} (m : result A) (k : A -> result B) : result B :=
  match m with
  | Ok a => k a
  | Throw e => Throw e
  | OutOfFuel => OutOfFuel
  end.

Notation "x <- m ;; k" := (bind m (fun x => k))
  (at level 61, m at next level, right associativity).

(** [xs.forEach(body)] where the body updates captured variables [S] and
    may throw; a [return] inside the body ends that iteration only. *)
Fixpoint forEach {S A : Type} (body : S -> A -> result S) (xs : list A) (s : S)
  : result S :=
  match xs with
  | [] => Ok s
  | x :: xs' => s' <- body s x ;; forEach body xs' s'
  end.

(* ===================================================================== *)
(** ** The platform: [fs] and [path] *)
(* ===================================================================== *)

(** What [lstatSync] reports about the entry itself (links not followed). *)
Inductive FileType : Type := S_IFLNK | S_IFDIR | S_IFREG | S_IFOTHER.

Record Stats : Type := { mode : FileType }.

Definition isSymbolicLink (st : Stats) : bool :=
  match mode st with S_IFLNK => true | _ => false end.

Definition isDirectory (st : Stats) : bool :=
  match mode st with S_IFDIR => true | _ => false end.

Record FileSystem : Type := {
  readdirSync : jsstring -> result (list jsstring);
  lstatSync : jsstring -> result Stats;
  readFileSync : jsstring -> result jsstring   (* with encoding 'utf-8' *)
}.

Record PathModule : Type := {
  extname : jsstring -> jsstring;
  basename : jsstring -> jsstring;
  pjoin : jsstring -> jsstring -> jsstring     (* [path.join(dir, file)] *)
}.

(* ===================================================================== *)
(** ** The program *)
(* ===================================================================== *)

Definition defaultIgnoreDirs : list jsstring :=
  [js "node_modules"; js "dist"; js "tests"].

Definition prismaSchema : jsstring := js "schema.prisma".

Module FileMetrics.
  (** The object returned by [getFileMetrics]. *)
Record t : Type := {
    lines : nat;
    characters : nat;
    commentLines : nat;
    blankLines : nat;
    codeAndCommentLines : nat;
    totalLines : nat
  }.
End FileMetrics.

Module Aggregate.
  (** The object returned by [processDirectory]; the same seven numbers
      are its local counters while the loop runs. *)
Record t : Type := {
    totalLines : nat;
    totalCharacters : nat;
    commentLines : nat;
    blankLines : nat;
    codeAndCommentLines : nat;
    fileCount : nat;
    directoryCount : nat
  }.

Definition zero : t := Build_t 0 0 0 0 0 0 0.
End Aggregate.

(** The four filter callbacks of [getFileMetrics], in source order. *)
Definition nonCommentNonEmpty (line : jsstring) : bool :=
  let trimmedLine := JsString.trim line in
  JsString.truthy trimmedLine
  && negb (JsString.startsWith trimmedLine (js "//"))
  && negb (JsString.startsWith trimmedLine (js "/*"))
  && negb (JsString.endsWith trimmedLine (js "*/")).

Definition isCommentLine (line : jsstring) : bool :=
  let trimmedLine := JsString.trim line in
  JsString.startsWith trimmedLine (js "//")
  || JsString.startsWith trimmedLine (js "/*")
  || JsString.endsWith trimmedLine (js "*/").

Definition isBlankLine (line : jsstring) : bool :=
  negb (JsString.truthy (JsString.trim line)).

Definition isCodeAndCommentLine (line : jsstring) : bool :=
  let trimmedLine := JsString.trim line in
  JsString.truthy trimmedLine
  && (JsString.includes trimmedLine (js "//")
      || JsString.includes trimmedLine (js "/*")
      || JsString.includes trimmedLine (js "*/")).

Section Program.

Variable path : PathModule.
Variable fs : FileSystem.

Definition isValidFile (filePath : jsstring) : bool :=
    let ext := extname path filePath in
    let baseName := basename path filePath in
    (JsString.eqb ext (js ".js") || JsString.eqb ext (js ".ts")
     || JsString.eqb baseName prismaSchema)
    && negb (existsb (fun dir => JsString.includes filePath dir) defaultIgnoreDirs).

Definition getFileMetrics (filePath : jsstring) : result FileMetrics.t :=
    content <- readFileSync fs filePath ;;
    let lines := JsString.split LF content in
    let nonCommentNonEmptyLines := filter nonCommentNonEmpty lines in
    let commentLines := filter isCommentLine lines in
    let blankLines := filter isBlankLine lines in
    let codeAndCommentLines := filter isCodeAndCommentLine lines in
    let characters := JsString.length (JsString.join LF nonCommentNonEmptyLines) in
    Ok {| FileMetrics.lines := List.length nonCommentNonEmptyLines;
          FileMetrics.characters := characters;
          FileMetrics.commentLines := List.length commentLines;
          FileMetrics.blankLines := List.length blankLines;
          FileMetrics.codeAndCommentLines := List.length codeAndCommentLines;
          FileMetrics.totalLines := List.length lines |}.

  (** The body of the [forEach] callback of [processDirectory]: [acc] holds
      the seven counters, [recur] is the recursive call. *)
Definition visitEntry (recur : jsstring -> result Aggregate.t)
      (dir : jsstring) (acc : Aggregate.t) (file : jsstring)
    : result Aggregate.t :=
    let filePath := pjoin path dir file in
    stat <- lstatSync fs filePath ;;
    if isSymbolicLink stat then Ok acc
    else if isDirectory stat then
      sub <- recur filePath ;;
      Ok {| Aggregate.totalLines :=
              Aggregate.totalLines acc + Aggregate.totalLines sub;
            Aggregate.totalCharacters :=
              Aggregate.totalCharacters acc + Aggregate.totalCharacters sub;
            Aggregate.commentLines :=
              Aggregate.commentLines acc + Aggregate.commentLines sub;
            Aggregate.blankLines :=
              Aggregate.blankLines acc + Aggregate.blankLines sub;
            Aggregate.codeAndCommentLines :=
              Aggregate.codeAndCommentLines acc + Aggregate.codeAndCommentLines sub;
            Aggregate.fileCount :=
              Aggregate.fileCount acc + Aggregate.fileCount sub;
            Aggregate.directoryCount :=
              (Aggregate.directoryCount acc + 1) + Aggregate.directoryCount sub |}
    else if isValidFile filePath then
      m <- getFileMetrics filePath ;;
      Ok {| Aggregate.totalLines :=
              Aggregate.totalLines acc + FileMetrics.lines m;
            Aggregate.totalCharacters :=
              Aggregate.totalCharacters acc + FileMetrics.characters m;
            Aggregate.commentLines :=
              Aggregate.commentLines acc + FileMetrics.commentLines m;
            Aggregate.blankLines :=
              Aggregate.blankLines acc + FileMetrics.blankLines m;
            Aggregate.codeAndCommentLines :=
              Aggregate.codeAndCommentLines acc + FileMetrics.codeAndCommentLines m;
            Aggregate.fileCount := Aggregate.fileCount acc + 1;
            Aggregate.directoryCount := Aggregate.directoryCount acc |}
    else Ok acc.

Fixpoint processDirectory (fuel : nat) (dir : jsstring) : result Aggregate.t :=
    match fuel with
    | O => OutOfFuel
    | S fuel' =>
        files <- readdirSync fs dir ;;
        forEach (visitEntry (processDirectory fuel') dir) files Aggregate.zero
    end.

End Program.

(** *** The averages of [printMetrics]

    The five derived values that [printMetrics] computes before it renders
    the table.  Division is the IEEE 754 binary64 division of JavaScript
    numbers; [toNumber] is the number that holds a counter. *)

Definition toNumber (n : nat) : float :=
  PrimFloat.of_uint63 (Uint63.of_Z (Z.of_nat n)).

Module Averages.
Record t : Type := {
    avgLinesPerFile : float;
    avgCharactersPerFile : float;
    avgCommentLinesPerFile : float;
    avgBlankLinesPerFile : float;
    avgCodeAndCommentLinesPerFile : float
  }.
End Averages.

Definition printMetrics_averages (metrics : Aggregate.t) : Averages.t :=
  let totalLines := Aggregate.totalLines metrics in
  let totalCharacters := Aggregate.totalCharacters metrics in
  let commentLines := Aggregate.commentLines metrics in
  let blankLines := Aggregate.blankLines metrics in
  let codeAndCommentLines := Aggregate.codeAndCommentLines metrics in
  let fileCount := Aggregate.fileCount metrics in
  {| Averages.avgLinesPerFile :=
       if 0 <? fileCount
       then (toNumber totalLines / toNumber fileCount)%float else 0%float;
     Averages.avgCharactersPerFile :=
       if 0 <? fileCount
       then (toNumber totalCharacters / toNumber fileCount)%float else 0%float;
     Averages.avgCommentLinesPerFile :=
       if 0 <? fileCount
       then (toNumber commentLines / toNumber fileCount)%float else 0%float;
     Averages.avgBlankLinesPerFile :=
       if 0 <? fileCount
       then (toNumber blankLines / toNumber fileCount)%float else 0%float;
     Averages.avgCodeAndCommentLinesPerFile :=
       if 0 <? fileCount
       then (toNumber codeAndCommentLines / toNumber fileCount)%float
       else 0%float |}.

(* ===================================================================== *)
(** ** Directory trees *)
(* ===================================================================== *)

(** What a walk that does not follow links can see of a file system: the
    entry at a path is out of reach of [lstatSync], a symbolic link, a
    directory (listable or not) or anything else (readable or not). *)
#[local] Unset Elimination Schemes.
Inductive node : Type :=
| Unstatable (e : error)
| Symlink
| File (content : jsstring)
| UnreadableFile (e : error)
| Dir (entries : list (jsstring * node))
| UnlistableDir (e : error).
#[local] Set Elimination Schemes.

(** The first error of a list of checks, in order. *)
Definition firstOf {A : Type} (f : A -> option error) (l : list A) : option error :=
  fold_right (fun a r => match f a with Some e => Some e | None => r end) None l.

(** The pure part of [getFileMetrics]: the object it builds from the
    content it has read. *)
Definition measure (content : jsstring) : FileMetrics.t :=
  let lines := JsString.split LF content in
  {| FileMetrics.lines := List.length (filter nonCommentNonEmpty lines);
     FileMetrics.characters :=
       JsString.length (JsString.join LF (filter nonCommentNonEmpty lines));
     FileMetrics.commentLines := List.length (filter isCommentLine lines);
     FileMetrics.blankLines := List.length (filter isBlankLine lines);
     FileMetrics.codeAndCommentLines :=
       List.length (filter isCodeAndCommentLine lines);
     FileMetrics.totalLines := List.length lines |}.

(** Fuel that the walk of a tree needs: one unit per nested directory. *)
Fixpoint height (t : node) : nat :=
  match t with
  | Dir es => S (list_max (map (fun e => height (snd e)) es))
  | UnlistableDir _ => 1
  | _ => 0
  end.

(** Directories in a tree, the root included when it is one. *)
Fixpoint dirsIn (t : node) : nat :=
  match t with
  | Dir es => S (list_sum (map (fun e => dirsIn (snd e)) es))
  | UnlistableDir _ => 1
  | _ => 0
  end.

(** Subdirectories anywhere below the root, the root excluded. *)
Definition subdirectories (t : node) : nat :=
  match t with
  | Dir es => list_sum (map (fun e => dirsIn (snd e)) es)
  | _ => 0
  end.

(** The tree without its symbolic links. *)
Fixpoint eraseLinks (t : node) : node :=
  match t with
  | Dir es =>
      Dir (flat_map (fun e => match snd e with
                              | Symlink => []
                              | _ => [(fst e, eraseLinks (snd e))]
                              end) es)
  | _ => t
  end.

(** [reorder t t']: [t'] is [t] with the entries of any of its directories
    listed in another order. *)
Inductive reorder : node -> node -> Prop :=
| reorder_same t : reorder t t
| reorder_dir es es' : reorder_entries es es' -> reorder (Dir es) (Dir es')
with reorder_entries : list (jsstring * node) -> list (jsstring * node) -> Prop :=
| reorder_nil : reorder_entries [] []
| reorder_cons n c c' l l' :
    reorder c c' -> reorder_entries l l' ->
    reorder_entries ((n, c) :: l) ((n, c') :: l')
| reorder_swap a b l : reorder_entries (a :: b :: l) (b :: a :: l)
| reorder_trans l1 l2 l3 :
    reorder_entries l1 l2 -> reorder_entries l2 l3 -> reorder_entries l1 l3.

Scheme reorder_mut := Minimality for reorder Sort Prop
  with reorder_entries_mut := Minimality for reorder_entries Sort Prop.
Combined Scheme reorder_mutind from reorder_mut, reorder_entries_mut.

(** The counters [acc] after the files measured [ms] and [d] directories
    have been added. *)
Definition addTotals (acc : Aggregate.t) (ms : list FileMetrics.t) (d : nat)
  : Aggregate.t :=
  {| Aggregate.totalLines :=
       Aggregate.totalLines acc + list_sum (map FileMetrics.lines ms);
     Aggregate.totalCharacters :=
       Aggregate.totalCharacters acc + list_sum (map FileMetrics.characters ms);
     Aggregate.commentLines :=
       Aggregate.commentLines acc + list_sum (map FileMetrics.commentLines ms);
     Aggregate.blankLines :=
       Aggregate.blankLines acc + list_sum (map FileMetrics.blankLines ms);
     Aggregate.codeAndCommentLines :=
       Aggregate.codeAndCommentLines acc
       + list_sum (map FileMetrics.codeAndCommentLines ms);
     Aggregate.fileCount := Aggregate.fileCount acc + List.length ms;
     Aggregate.directoryCount := Aggregate.directoryCount acc + d |}.

Section Trees.

Variable path : PathModule.

(** The paths of the in-scope files of the tree rooted at [p]: the
    entries that are neither links nor directories and pass
    [isValidFile]. *)
Fixpoint inScopeFiles (p : jsstring) (t : node) : list jsstring :=
  match t with
  | File _ | UnreadableFile _ => if isValidFile path p then [p] else []
  | Dir es => flat_map (fun e => inScopeFiles (pjoin path p (fst e)) (snd e)) es
  | _ => []
  end.

(** The measures of the readable in-scope files, in the same order. *)
Fixpoint inScopeMetrics (p : jsstring) (t : node) : list FileMetrics.t :=
  match t with
  | File c => if isValidFile path p then [measure c] else []
  | Dir es => flat_map (fun e => inScopeMetrics (pjoin path p (fst e)) (snd e)) es
  | _ => []
  end.

(** The error that ends the walk of the tree rooted at [p], if any: the
    first one in the order of the walk. *)
Fixpoint firstError (p : jsstring) (t : node) : option error :=
  match t with
  | Unstatable e => Some e
  | UnlistableDir e => Some e
  | UnreadableFile e => if isValidFile path p then Some e else None
  | Dir es => firstOf (fun e => firstError (pjoin path p (fst e)) (snd e)) es
  | _ => None
  end.

(** What the walk of one entry adds to the counters, or the error it
    ends with. *)
Definition entryOutcome (p : jsstring) (t : node) (acc : Aggregate.t)
  : result Aggregate.t :=
  match firstError p t with
  | Some e => Throw e
  | None => Ok (addTotals acc (inScopeMetrics p t) (dirsIn t))
  end.

(** No stat, listing or read of the walk fails. *)
Definition faultless (p : jsstring) (t : node) : Prop := firstError p t = None.

(** [occurs p t q u]: the entry [u] sits at path [q] in the tree [t]
    rooted at [p] (links are leaves, so nothing sits behind one). *)
Inductive occurs : jsstring -> node -> jsstring -> node -> Prop :=
| occurs_here p t : occurs p t p t
| occurs_below p es n c q u :
    In (n, c) es -> occurs (pjoin path p n) c q u -> occurs p (Dir es) q u.

(** An entry on which the walk throws. *)
Definition broken (q : jsstring) (u : node) : Prop :=
  match u with
  | Unstatable _ => True
  | UnlistableDir _ => True
  | UnreadableFile _ => isValidFile path q = true
  | _ => False
  end.

(** The failures that the specification lists: a directory that cannot
    be listed, an eligible file that cannot be read. *)
Definition brokenAsSpecified (q : jsstring) (u : node) : Prop :=
  match u with
  | UnlistableDir _ => True
  | UnreadableFile _ => isValidFile path q = true
  | _ => False
  end.

Variable fs : FileSystem.

(** [represents p t]: the file system shows the tree [t] at path [p]. *)
#[local] Unset Elimination Schemes.
Inductive represents : jsstring -> node -> Prop :=
| rep_unstatable p e :
    lstatSync fs p = Throw e -> represents p (Unstatable e)
| rep_symlink p st :
    lstatSync fs p = Ok st -> isSymbolicLink st = true ->
    represents p Symlink
| rep_file p st c :
    lstatSync fs p = Ok st -> isSymbolicLink st = false ->
    isDirectory st = false -> readFileSync fs p = Ok c ->
    represents p (File c)
| rep_unreadable p st e :
    lstatSync fs p = Ok st -> isSymbolicLink st = false ->
    isDirectory st = false -> readFileSync fs p = Throw e ->
    represents p (UnreadableFile e)
| rep_dir p st es :
    lstatSync fs p = Ok st -> isSymbolicLink st = false ->
    isDirectory st = true -> readdirSync fs p = Ok (map fst es) ->
    Forall (fun e => represents (pjoin path p (fst e)) (snd e)) es ->
    represents p (Dir es)
| rep_unlistable p st e :
    lstatSync fs p = Ok st -> isSymbolicLink st = false ->
    isDirectory st = true -> readdirSync fs p = Throw e ->
    represents p (UnlistableDir e).
#[local] Set Elimination Schemes.

(** The same for the root of a walk, which [processDirectory] lists
    without a stat. *)
Definition representsRoot (p : jsstring) (t : node) : Prop :=
  match t with
  | Dir es =>
      readdirSync fs p = Ok (map fst es)
      /\ Forall (fun e => represents (pjoin path p (fst e)) (snd e)) es
  | UnlistableDir e => readdirSync fs p = Throw e
  | _ => False
  end.

End Trees.

(** The sums of the measures [ms] of some files, with [d] directories. *)
Definition totalsOf (ms : list FileMetrics.t) (d : nat) : Aggregate.t :=
  {| Aggregate.totalLines := list_sum (map FileMetrics.lines ms);
     Aggregate.totalCharacters := list_sum (map FileMetrics.characters ms);
     Aggregate.commentLines := list_sum (map FileMetrics.commentLines ms);
     Aggregate.blankLines := list_sum (map FileMetrics.blankLines ms);
     Aggregate.codeAndCommentLines :=
       list_sum (map FileMetrics.codeAndCommentLines ms);
     Aggregate.fileCount := List.length ms;
     Aggregate.directoryCount := d |}.

(* ===================================================================== *)
(** ** The vocabulary of the specification *)
(* ===================================================================== *)

Definition StartsWith (s p : jsstring) : Prop := exists r, s = p ++ r.
Definition EndsWith (s p : jsstring) : Prop := exists r, s = r ++ p.
Definition Contains (s p : jsstring) : Prop := exists a b, s = a ++ p ++ b.

(** The four classes of a line, in the words of the specification. *)
Definition BlankClassified (line : jsstring) : Prop :=
  JsString.trim line = [].

Definition CommentClassified (line : jsstring) : Prop :=
  StartsWith (JsString.trim line) (js "//")
  \/ StartsWith (JsString.trim line) (js "/*")
  \/ EndsWith (JsString.trim line) (js "*/").

Definition CodeClassified (line : jsstring) : Prop :=
  ~ BlankClassified line /\ ~ CommentClassified line.

Definition MixedClassified (line : jsstring) : Prop :=
  ~ BlankClassified line
  /\ (Contains line (js "//") \/ Contains line (js "/*")
      \/ Contains line (js "*/")).

(* ===================================================================== *)
(** ** Fixtures *)
(* ===================================================================== *)

(** [s] up to, and without, the first [c]. *)
Fixpoint upTo (c : N) (s : jsstring) : jsstring :=
  match s with
  | [] => []
  | x :: s' => if N.eqb x c then [] else x :: upTo c s'
  end.

(** A [path] module for the fixtures.  On the paths used below (absolute,
    normalised, without a trailing slash, joined with plain entry names)
    it computes what [path.posix] computes: the last portion of the path,
    its extension from the last dot unless that dot starts the portion,
    and the two arguments joined by one slash. *)
Definition posix : PathModule :=
  {| basename := fun p => rev (upTo 47 (rev p));
     extname := fun p =>
       let base := rev (upTo 47 (rev p)) in
       let ext := rev (upTo 46 (rev base)) in
       if JsString.eqb base (js "..") then []
       else if JsString.includes base (js ".")
            && (1 <? List.length base - List.length ext)
       then 46%N :: ext else [];
     pjoin := fun dir file => dir ++ 47%N :: file |}.

(** One row of a file system given by a table: what each call answers
    for the path. *)
Record row : Type := {
  at_path : jsstring;
  on_lstat : result Stats;
  on_readdir : result (list jsstring);
  on_readFile : result jsstring
}.

Definition directory (p : jsstring) (names : list jsstring) : row :=
  {| at_path := p; on_lstat := Ok {| mode := S_IFDIR |};
     on_readdir := Ok names; on_readFile := Throw EISDIR |}.

Definition regular (p : jsstring) (content : jsstring) : row :=
  {| at_path := p; on_lstat := Ok {| mode := S_IFREG |};
     on_readdir := Throw ENOTDIR; on_readFile := Ok content |}.

Definition danglingLink (p : jsstring) : row :=
  {| at_path := p; on_lstat := Ok {| mode := S_IFLNK |};
     on_readdir := Throw ENOENT; on_readFile := Throw ENOENT |}.

Definition lookup (table : list row) (p : jsstring) : option row :=
  find (fun r => JsString.eqb (at_path r) p) table.

(** The file system of a table; a path without a row does not exist. *)
Definition tableFS (table : list row) : FileSystem :=
  {| readdirSync := fun p =>
       match lookup table p with Some r => on_readdir r | None => Throw ENOENT end;
     lstatSync := fun p =>
       match lookup table p with Some r => on_lstat r | None => Throw ENOENT end;
     readFileSync := fun p =>
       match lookup table p with Some r => on_readFile r | None => Throw ENOENT end |}.

(** The file of the specification's example: four lines, the third one
    empty, and a final newline. *)
Definition exampleLine1 : jsstring := js "// header comment".
Definition exampleLine2 : jsstring := js "const x = 1; // trailing".
Definition exampleLine4 : jsstring := js "function f() {}".

Definition exampleContent : jsstring :=
  exampleLine1 ++ LF :: exampleLine2 ++ LF :: LF :: exampleLine4 ++ [LF].

(** A directory [/r] that holds this one file as [a.js]. *)
Definition exampleFS : FileSystem :=
  tableFS [directory (js "/r") [js "a.js"];
           regular (js "/r/a.js") exampleContent].

Definition exampleTree : node := Dir [(js "a.js", File exampleContent)].

(** A project: sources, a nested empty directory, an ignored directory,
    a file out of scope and a dangling link. *)
Definition projectRows (flip : bool) : list row :=
  [directory (js "/p")
     (if flip then [js "src"; js "node_modules"; js "old"; js "README.md"; js "a.js"]
      else [js "a.js"; js "README.md"; js "old"; js "node_modules"; js "src"]);
   regular (js "/p/a.js") exampleContent;
   regular (js "/p/README.md") (js "# notes");
   danglingLink (js "/p/old");
   directory (js "/p/node_modules") [js "x.js"];
   regular (js "/p/node_modules/x.js") (js "let y;");
   directory (js "/p/src")
     (if flip then [js "deep"; js "b.ts"] else [js "b.ts"; js "deep"]);
   regular (js "/p/src/b.ts") (js "let z = 2;");
   directory (js "/p/src/deep") []].

Definition projectFS : FileSystem := tableFS (projectRows false).
Definition projectFS_flipped : FileSystem := tableFS (projectRows true).

Definition projectTree : node :=
  Dir [(js "a.js", File exampleContent);
       (js "README.md", File (js "# notes"));
       (js "old", Symlink);
       (js "node_modules", Dir [(js "x.js", File (js "let y;"))]);
       (js "src", Dir [(js "b.ts", File (js "let z = 2;"));
                       (js "deep", Dir [])])].

Definition projectTree_flipped : node :=
  Dir [(js "src", Dir [(js "deep", Dir []);
                       (js "b.ts", File (js "let z = 2;"))]);
       (js "node_modules", Dir [(js "x.js", File (js "let y;"))]);
       (js "old", Symlink);
       (js "README.md", File (js "# notes"));
       (js "a.js", File exampleContent)].

(** A link cycle: the directory [/r] holds [a.js] and a link [loop] to
    [/r] itself, so every path [/r/loop/.../loop] lists the same two
    entries again, without end. *)
Definition cycleFS : FileSystem :=
  {| readdirSync := fun _ => Ok [js "a.js"; js "loop"];
     lstatSync := fun p =>
       if JsString.endsWith p (js "/loop") then Ok {| mode := S_IFLNK |}
       else if JsString.endsWith p (js "/a.js") then Ok {| mode := S_IFREG |}
       else Ok {| mode := S_IFDIR |};
     readFileSync := fun p =>
       if JsString.endsWith p (js "/a.js") then Ok exampleContent
       else Throw EISDIR |}.

Definition cycleTree : node :=
  Dir [(js "a.js", File exampleContent); (js "loop", Symlink)].

Definition cycleFS_unlinked : FileSystem := exampleFS.

(** A directory that can be listed but not searched: the names are
    there, a stat of any of them is refused. *)
Definition unsearchableFS : FileSystem :=
  tableFS [directory (js "/r") [js "notes.txt"];
           {| at_path := js "/r/notes.txt"; on_lstat := Throw EACCES;
              on_readdir := Throw EACCES; on_readFile := Throw EACCES |}].

Definition unsearchableTree : node :=
  Dir [(js "notes.txt", Unstatable EACCES)].

(* ===================================================================== *)
(** ** The table and the driver *)
(* ===================================================================== *)

(** A value cell of the table: a counter as it is, or an average through
    [toFixed(2)]. *)
Inductive cell : Type :=
| Count (n : nat)
| Fixed2 (x : float).

(** What the program writes: a table (its head and its rows; colours
    left out) or the usage text of [program.help()]. *)
Inductive output : Type :=
| Table (head : jsstring * jsstring) (rows : list (jsstring * cell))
| Help.

(** [printMetrics(folder, metrics)]: the table it logs.  Loading the
    colour module and rendering the table are taken to succeed. *)
Definition printMetrics (folder : jsstring) (metrics : Aggregate.t) : output :=
  let averages := printMetrics_averages metrics in
  Table (folder ++ js " folder Metrics", js "Values")
    [(js "Total lines of code", Count (Aggregate.totalLines metrics));
     (js "Total characters", Count (Aggregate.totalCharacters metrics));
     (js "Total comment lines", Count (Aggregate.commentLines metrics));
     (js "Total blank lines", Count (Aggregate.blankLines metrics));
     (js "Total code and comment lines",
      Count (Aggregate.codeAndCommentLines metrics));
     (js "Files", Count (Aggregate.fileCount metrics));
     (js "Directories", Count (Aggregate.directoryCount metrics));
     (js "Avg lines per file", Fixed2 (Averages.avgLinesPerFile averages));
     (js "Avg characters per file",
      Fixed2 (Averages.avgCharactersPerFile averages));
     (js "Avg comment lines per file",
      Fixed2 (Averages.avgCommentLinesPerFile averages));
     (js "Avg blank lines per file",
      Fixed2 (Averages.avgBlankLinesPerFile averages));
     (js "Avg code and comment lines per file",
      Fixed2 (Averages.avgCodeAndCommentLinesPerFile averages))].

Module Options.
(** [program.opts()]: three flags and the argument of [--dir], if any. *)
Record t : Type := {
  root : bool;
  src : bool;
  all : bool;
  dir : option jsstring
}.
End Options.

(** Truthiness of [options.dir]: absent and the empty string are falsy. *)
Definition given (d : option jsstring) : bool :=
  match d with
  | Some s => JsString.truthy s
  | None => false
  end.

(** A step of the driver: it adds to what has been written so far and
    ends normally or with a throw, after which no later step runs. *)
Definition step : Type := list output -> list output * result unit.

Definition skip : step := fun console => (console, Ok tt).

Definition andThen (first next : step) : step :=
  fun console =>
    match first console with
    | (console', Ok _) => next console'
    | (console', Throw e) => (console', Throw e)
    | (console', OutOfFuel) => (console', OutOfFuel)
    end.

Definition help : step := fun console => (console ++ [Help], Ok tt).

Section Driver.

Variable path : PathModule.
Variable resolve : jsstring -> jsstring.   (* [path.resolve] *)
Variable fs : FileSystem.
Variable fuel : nat.
Variable dirname : jsstring.               (* [__dirname] *)

(** [const m = processDirectory(dir); await printMetrics(folder, m);] *)
Definition report (folder dir : jsstring) : step :=
  fun console =>
    match processDirectory path fs fuel dir with
    | Ok metrics => (console ++ [printMetrics folder metrics], Ok tt)
    | Throw e => (console, Throw e)
    | OutOfFuel => (console, OutOfFuel)
    end.

(** The body of the program: what it has written when it ends, and how
    it ends. *)
Definition main (options : Options.t) : list output * result unit :=
  let rootDir := resolve dirname in
  let srcDir := pjoin path rootDir (js "src") in
  andThen
    (if Options.root options || Options.all options
     then report (js "Root") rootDir else skip)
    (andThen
       (if Options.src options || Options.all options
        then report (js "src") srcDir else skip)
       (andThen
          (match Options.dir options with
           | Some d =>
               if JsString.truthy d then report d (resolve d) else skip
           | None => skip
           end)
          (if negb (Options.root options) && negb (Options.src options)
              && negb (Options.all options) && negb (given (Options.dir options))
           then help else skip)))
    [].

End Driver.

(** The error of the call that fails on a broken entry. *)
Definition raises (path : PathModule) (q : jsstring) (u : node) (e : error) : Prop :=
  match u with
  | Unstatable e' => e' = e
  | UnlistableDir e' => e' = e
  | UnreadableFile e' => e' = e /\ isValidFile path q = true
  | _ => False
  end.

(** What every aggregate that [processDirectory] returns satisfies. *)
Definition wellFormed (a : Aggregate.t) : Prop :=
  Aggregate.commentLines a <= Aggregate.codeAndCommentLines a
  /\ Aggregate.codeAndCommentLines a
     <= Aggregate.commentLines a + Aggregate.totalLines a
  /\ Aggregate.totalLines a <= Aggregate.totalCharacters a
  /\ Aggregate.fileCount a
     <= Aggregate.blankLines a + Aggregate.commentLines a + Aggregate.totalLines a
  /\ (Aggregate.fileCount a = 0 ->
      Aggregate.totalLines a = 0 /\ Aggregate.totalCharacters a = 0
      /\ Aggregate.commentLines a = 0 /\ Aggregate.blankLines a = 0
      /\ Aggregate.codeAndCommentLines a = 0).

(** Fixtures of the driver: absolute, normalised paths resolve to
    themselves; an empty disk; the flags of [--all] and of [--dir ""]. *)
Definition resolveAbsolute : jsstring -> jsstring := fun p => p.

Definition emptyDisk : FileSystem := tableFS [].

Definition optionsAll : Options.t :=
  {| Options.root := false; Options.src := false; Options.all := true;
     Options.dir := None |}.

Definition optionsEmptyDir : Options.t :=
  {| Options.root := false; Options.src := false; Options.all := false;
     Options.dir := Some [] |}.

(** A project kept under a path that holds an ignored name as a
    substring: [/dist-tools], with a source file and a subdirectory. *)
Definition distFS : FileSystem :=
  tableFS [directory (js "/dist-tools") [js "a.js"; js "lib"];
           regular (js "/dist-tools/a.js") exampleContent;
           directory (js "/dist-tools/lib") [js "b.ts"];
           regular (js "/dist-tools/lib/b.ts") (js "let z = 2;")].

Definition distTree : node :=
  Dir [(js "a.js", File exampleContent);
       (js "lib", Dir [(js "b.ts", File (js "let z = 2;"))])].

(* ===================================================================== *)
(** ** Strings *)
(* ===================================================================== *)

Lemma eqb_eq (a b : jsstring) : JsString.eqb a b = true <-> a = b.
Proof.
  revert b. induction a as [|x a IH]; intros [|y b]; simpl;
    try (split; [discriminate | congruence]); try tauto.
  rewrite andb_true_iff, N.eqb_eq, IH. split.
  - intros [-> ->]. reflexivity.
  - intros H. injection H as -> ->. auto.
Qed.

Lemma startsWith_spec (s p : jsstring) :
  JsString.startsWith s p = true <-> StartsWith s p.
Proof.
  unfold StartsWith. revert s. induction p as [|y p IH]; intros s.
  - simpl. split; [intros _; exists s; reflexivity | destruct s; reflexivity].
  - destruct s as [|x s]; simpl.
    + split; [discriminate | intros [r H]; discriminate].
    + rewrite andb_true_iff, N.eqb_eq, IH. split.
      * intros [-> [r ->]]. exists r. reflexivity.
      * intros [r H]. injection H as -> ->. split; [reflexivity | exists r; reflexivity].
Qed.

Lemma endsWith_spec (s p : jsstring) :
  JsString.endsWith s p = true <-> EndsWith s p.
Proof.
  unfold JsString.endsWith, EndsWith.
  rewrite (startsWith_spec (rev s) (rev p)). unfold StartsWith.
  split; intros [r H]; exists (rev r).
  - apply (f_equal (@rev N)) in H.
    rewrite rev_involutive, rev_app_distr, rev_involutive in H. exact H.
  - subst s. apply rev_app_distr.
Qed.

Lemma includes_spec (s p : jsstring) :
  JsString.includes s p = true <-> Contains s p.
Proof.
  unfold Contains. induction s as [|x s IH].
  - change (JsString.includes [] p) with (JsString.startsWith [] p || false).
    rewrite orb_false_r, startsWith_spec. unfold StartsWith. split.
    + intros [r H]. exists [], r. exact H.
    + intros [a [b H]]. destruct a; [exists b; exact H | discriminate].
  - change (JsString.includes (x :: s) p)
      with (JsString.startsWith (x :: s) p || JsString.includes s p).
    rewrite orb_true_iff, startsWith_spec, IH. unfold StartsWith. split.
    + intros [[r H] | [a [b H]]].
      * exists [], r. exact H.
      * exists (x :: a), b. simpl. rewrite H. reflexivity.
    + intros [[|y a] [b H]].
      * left. exists b. exact H.
      * right. injection H as _ H. exists a, b. exact H.
Qed.

Lemma includes_rev (s p : jsstring) :
  JsString.includes (rev s) (rev p) = JsString.includes s p.
Proof.
  apply eq_iff_eq_true. rewrite !includes_spec. unfold Contains.
  split; intros [a [b H]]; exists (rev b), (rev a).
  - apply (f_equal (@rev N)) in H.
    rewrite rev_involutive, !rev_app_distr, rev_involutive, <- app_assoc in H.
    exact H.
  - subst s. rewrite !rev_app_distr, <- app_assoc. reflexivity.
Qed.

Lemma includes_trimStart (s p : jsstring) (x : N) :
  JsString.isWhiteSpace x = false ->
  JsString.includes (JsString.trimStart s) (x :: p) = JsString.includes s (x :: p).
Proof.
  intros Hx. induction s as [|c s IH]; [reflexivity|].
  simpl JsString.trimStart. destruct (JsString.isWhiteSpace c) eqn:Hc; [|reflexivity].
  rewrite IH.
  change (JsString.includes (c :: s) (x :: p))
    with (N.eqb c x && JsString.startsWith s p || JsString.includes s (x :: p)).
  destruct (N.eqb_spec c x) as [->|_]; [congruence | reflexivity].
Qed.

Lemma includes_trimEnd (s p : jsstring) (x : N) :
  JsString.isWhiteSpace x = false ->
  JsString.includes (JsString.trimEnd s) (p ++ [x]) = JsString.includes s (p ++ [x]).
Proof.
  intros Hx. unfold JsString.trimEnd.
  rewrite <- (includes_rev s), <- (rev_involutive (p ++ [x])) at 1.
  rewrite includes_rev, rev_app_distr. simpl.
  apply includes_trimStart. exact Hx.
Qed.

(** A marker of two code units that are not white space is in the trimmed
    line exactly when it is in the line. *)
Lemma includes_trim (s : jsstring) (x y : N) :
  JsString.isWhiteSpace x = false -> JsString.isWhiteSpace y = false ->
  JsString.includes (JsString.trim s) [x; y] = JsString.includes s [x; y].
Proof.
  intros Hx Hy. unfold JsString.trim.
  transitivity (JsString.includes (JsString.trimStart s) [x; y]).
  - exact (includes_trimEnd (JsString.trimStart s) [x] y Hy).
  - apply includes_trimStart. exact Hx.
Qed.

Lemma split_nonempty (sep : N) (s : jsstring) : JsString.split sep s <> [].
Proof.
  destruct s as [|c s]; simpl; [discriminate|].
  destruct (N.eqb c sep); [discriminate|].
  destruct (JsString.split sep s); discriminate.
Qed.

(** Splitting loses nothing: joining the pieces gives the string back. *)
Lemma join_split (sep : N) (s : jsstring) :
  JsString.join sep (JsString.split sep s) = s.
Proof.
  induction s as [|c s IH]; [reflexivity|].
  simpl JsString.split. pose proof (split_nonempty sep s) as Hne.
  destruct (N.eqb_spec c sep) as [->|_].
  - destruct (JsString.split sep s) as [|q rest]; [congruence|].
    simpl in *. rewrite IH. reflexivity.
  - destruct (JsString.split sep s) as [|q rest]; [congruence|].
    destruct rest; simpl in *; rewrite <- IH; reflexivity.
Qed.

Lemma existsb_false {A : Type} (f : A -> bool) (l : list A) :
  existsb f l = false <-> forall x, In x l -> f x = false.
Proof.
  induction l as [|a l IH]; simpl.
  - tauto.
  - rewrite orb_false_iff, IH. split.
    + intros [Ha Hl] x [<-|Hx]; auto.
    + intros H. split; auto.
Qed.

(* ===================================================================== *)
(** ** Lines and their classes *)
(* ===================================================================== *)

Lemma isBlankLine_spec (line : jsstring) :
  isBlankLine line = true <-> BlankClassified line.
Proof.
  unfold isBlankLine, BlankClassified.
  destruct (JsString.trim line); simpl; split; congruence.
Qed.

Lemma isCommentLine_spec (line : jsstring) :
  isCommentLine line = true <-> CommentClassified line.
Proof.
  unfold isCommentLine, CommentClassified. cbv zeta.
  rewrite !orb_true_iff, !startsWith_spec, endsWith_spec. tauto.
Qed.

Lemma nonCommentNonEmpty_split (line : jsstring) :
  nonCommentNonEmpty line = negb (isBlankLine line) && negb (isCommentLine line).
Proof.
  unfold nonCommentNonEmpty, isBlankLine, isCommentLine. cbv zeta.
  rewrite negb_involutive, !negb_orb, !andb_assoc. reflexivity.
Qed.

Lemma nonCommentNonEmpty_spec (line : jsstring) :
  nonCommentNonEmpty line = true <-> CodeClassified line.
Proof.
  rewrite nonCommentNonEmpty_split. unfold CodeClassified.
  rewrite andb_true_iff, !negb_true_iff,
    <- isBlankLine_spec, <- isCommentLine_spec, !not_true_iff_false.
  tauto.
Qed.

Lemma isCodeAndCommentLine_spec (line : jsstring) :
  isCodeAndCommentLine line = true <-> MixedClassified line.
Proof.
  unfold isCodeAndCommentLine, MixedClassified. cbv zeta.
  change (js "//") with [47; 47]%N. change (js "/*") with [47; 42]%N.
  change (js "*/") with [42; 47]%N.
  rewrite !includes_trim by reflexivity.
  rewrite andb_true_iff, !orb_true_iff, !includes_spec.
  rewrite <- isBlankLine_spec. unfold isBlankLine.
  rewrite negb_true_iff, not_false_iff_true. tauto.
Qed.

(** A blank line is no comment line: an empty string starts and ends with
    no marker. *)
Lemma blank_not_comment (line : jsstring) :
  isBlankLine line = true -> isCommentLine line = false.
Proof.
  unfold isBlankLine, isCommentLine. cbv zeta.
  destruct (JsString.trim line); [reflexivity | discriminate].
Qed.

Lemma one_class (line : jsstring) :
  Nat.b2n (isBlankLine line) + Nat.b2n (isCommentLine line)
  + Nat.b2n (nonCommentNonEmpty line) = 1.
Proof.
  rewrite nonCommentNonEmpty_split.
  pose proof (blank_not_comment line) as H.
  destruct (isBlankLine line); [rewrite H by reflexivity; reflexivity|].
  destruct (isCommentLine line); reflexivity.
Qed.

Lemma filter_three_way {A : Type} (f g h : A -> bool) (l : list A) :
  (forall x, Nat.b2n (f x) + Nat.b2n (g x) + Nat.b2n (h x) = 1) ->
  List.length (filter f l) + List.length (filter g l) + List.length (filter h l)
  = List.length l.
Proof.
  intros H. induction l as [|a l IH]; [reflexivity|].
  simpl. specialize (H a).
  destruct (f a), (g a), (h a); simpl in *; lia.
Qed.

Lemma filter_three_way_perm {A : Type} (f g h : A -> bool) (l : list A) :
  (forall x, Nat.b2n (f x) + Nat.b2n (g x) + Nat.b2n (h x) = 1) ->
  Permutation l (filter f l ++ filter g l ++ filter h l).
Proof.
  intros H. induction l as [|a l IH]; [constructor|].
  simpl. specialize (H a).
  destruct (f a), (g a), (h a); simpl in H; try discriminate.
  - simpl. apply perm_skip. exact IH.
  - apply Permutation_cons_app. exact IH.
  - rewrite app_assoc. apply Permutation_cons_app.
    rewrite <- app_assoc. exact IH.
Qed.

Section GetFileMetrics.

Variable fs : FileSystem.

Lemma getFileMetrics_read (filePath content : jsstring) :
  readFileSync fs filePath = Ok content ->
  getFileMetrics fs filePath = Ok (measure content).
Proof. intros H. unfold getFileMetrics. rewrite H. reflexivity. Qed.

Lemma getFileMetrics_throw (filePath : jsstring) (e : error) :
  readFileSync fs filePath = Throw e ->
  getFileMetrics fs filePath = Throw e.
Proof. intros H. unfold getFileMetrics. rewrite H. reflexivity. Qed.

End GetFileMetrics.

(* ===================================================================== *)
(** ** Trees and sums *)
(* ===================================================================== *)

Lemma node_induction (P : node -> Prop) :
  (forall e, P (Unstatable e)) ->
  P Symlink ->
  (forall c, P (File c)) ->
  (forall e, P (UnreadableFile e)) ->
  (forall es, Forall (fun e => P (snd e)) es -> P (Dir es)) ->
  (forall e, P (UnlistableDir e)) ->
  forall t, P t.
Proof.
  intros HU HS HF HR HD HL. fix IH 1.
  intros [e | | c | e | es | e];
    [apply HU | exact HS | apply HF | apply HR | | apply HL].
  apply HD. induction es as [|[n c] es IHes]; constructor.
  - apply IH.
  - exact IHes.
Qed.

Lemma firstOf_cons {A : Type} (f : A -> option error) (a : A) (l : list A) :
  firstOf f (a :: l) = match f a with Some e => Some e | None => firstOf f l end.
Proof. reflexivity. Qed.

Lemma firstOf_None {A : Type} (f : A -> option error) (l : list A) :
  firstOf f l = None <-> forall a, In a l -> f a = None.
Proof.
  induction l as [|a l IH].
  - simpl. tauto.
  - rewrite firstOf_cons. split.
    + destruct (f a) eqn:Ha; [discriminate|].
      intros H x [<-|Hx]; [exact Ha | apply IH; assumption].
    + intros H. rewrite (H a (or_introl eq_refl)). apply IH.
      intros x Hx. apply H. right. exact Hx.
Qed.

Lemma list_sum_perm [l l' : list nat] :
  Permutation l l' -> list_sum l = list_sum l'.
Proof. induction 1; simpl; lia. Qed.

Lemma addTotals_nil (acc : Aggregate.t) : addTotals acc [] 0 = acc.
Proof. destruct acc. unfold addTotals. simpl. f_equal; lia. Qed.

Lemma addTotals_app (acc : Aggregate.t) (ms ms' : list FileMetrics.t) (d d' : nat) :
  addTotals (addTotals acc ms d) ms' d' = addTotals acc (ms ++ ms') (d + d').
Proof.
  unfold addTotals. simpl.
  rewrite !map_app, !list_sum_app, length_app. f_equal; lia.
Qed.

Lemma totalsOf_perm (ms ms' : list FileMetrics.t) (d : nat) :
  Permutation ms ms' -> totalsOf ms d = totalsOf ms' d.
Proof.
  intros H. unfold totalsOf.
  rewrite (list_sum_perm (Permutation_map FileMetrics.lines H)),
    (list_sum_perm (Permutation_map FileMetrics.characters H)),
    (list_sum_perm (Permutation_map FileMetrics.commentLines H)),
    (list_sum_perm (Permutation_map FileMetrics.blankLines H)),
    (list_sum_perm (Permutation_map FileMetrics.codeAndCommentLines H)),
    (Permutation_length H).
  reflexivity.
Qed.

Lemma height_entries (es : list (jsstring * node)) (n : nat) :
  list_max (map (fun e => height (snd e)) es) <= n ->
  forall e, In e es -> height (snd e) <= n.
Proof.
  intros H e He. rewrite list_max_le, Forall_forall in H.
  apply H. apply (in_map (fun e => height (snd e))). exact He.
Qed.

(* ===================================================================== *)
(** ** The walk *)
(* ===================================================================== *)

Section Walk.

Variable path : PathModule.
Variable fs : FileSystem.

Lemma forEach_entries (recur : jsstring -> result Aggregate.t)
    (dir : jsstring) (es : list (jsstring * node)) :
  (forall e, In e es -> forall acc,
      visitEntry path fs recur dir acc (fst e)
      = entryOutcome path (pjoin path dir (fst e)) (snd e) acc) ->
  forall acc,
    forEach (visitEntry path fs recur dir) (map fst es) acc
    = match firstOf (fun e => firstError path (pjoin path dir (fst e)) (snd e)) es with
      | Some x => Throw x
      | None =>
          Ok (addTotals acc
                (flat_map (fun e => inScopeMetrics path (pjoin path dir (fst e)) (snd e)) es)
                (list_sum (map (fun e => dirsIn (snd e)) es)))
      end.
Proof.
  induction es as [|a es IH]; intros H acc.
  - simpl. rewrite addTotals_nil. reflexivity.
  - simpl map. simpl forEach. rewrite (H a (or_introl eq_refl)).
    rewrite firstOf_cons. unfold entryOutcome.
    destruct (firstError path (pjoin path dir (fst a)) (snd a)); [reflexivity|].
    simpl bind. rewrite IH by (intros e He; apply H; right; exact He).
    destruct (firstOf _ es); [reflexivity|].
    rewrite addTotals_app. reflexivity.
Qed.

Lemma visitEntry_represents (t : node) :
  forall fuel dir file acc,
    represents path fs (pjoin path dir file) t ->
    height t <= fuel ->
    visitEntry path fs (processDirectory path fs fuel) dir acc file
    = entryOutcome path (pjoin path dir file) t acc.
Proof.
  induction t as [e | | c | e | es IH | e] using node_induction;
    intros fuel dir file acc Hrep Hfuel; inversion Hrep; subst;
    unfold visitEntry, entryOutcome; cbv zeta;
    match goal with H : lstatSync fs _ = _ |- _ => rewrite H end; simpl bind.
  - reflexivity.
  - match goal with H : isSymbolicLink _ = true |- _ => rewrite H end.
    simpl. rewrite addTotals_nil. reflexivity.
  - match goal with H : isSymbolicLink _ = false |- _ => rewrite H end.
    match goal with H : isDirectory _ = false |- _ => rewrite H end.
    simpl. destruct (isValidFile path (pjoin path dir file)).
    + match goal with H : readFileSync fs _ = _ |- _ =>
        rewrite (getFileMetrics_read fs _ _ H) end. simpl.
      destruct acc. unfold addTotals. simpl. f_equal. f_equal; lia.
    + rewrite addTotals_nil. reflexivity.
  - match goal with H : isSymbolicLink _ = false |- _ => rewrite H end.
    match goal with H : isDirectory _ = false |- _ => rewrite H end.
    simpl. destruct (isValidFile path (pjoin path dir file)).
    + match goal with H : readFileSync fs _ = _ |- _ =>
        rewrite (getFileMetrics_throw fs _ _ H) end. reflexivity.
    + rewrite addTotals_nil. reflexivity.
  - match goal with H : isSymbolicLink _ = false |- _ => rewrite H end.
    match goal with H : isDirectory _ = true |- _ => rewrite H end.
    simpl in Hfuel. destruct fuel as [|fuel]; [lia|].
    simpl processDirectory.
    match goal with H : readdirSync fs _ = _ |- _ => rewrite H end. simpl bind.
    rewrite forEach_entries.
    + simpl firstError. destruct (firstOf _ es); [reflexivity|].
      simpl. destruct acc. unfold addTotals. simpl. f_equal. f_equal; lia.
    + intros e He acc'.
      match goal with H : Forall (fun e => represents _ _ _ _) es |- _ =>
        rename H into Hes end.
      rewrite Forall_forall in IH, Hes.
      apply (IH e He).
      * apply (Hes e He).
      * pose proof (height_entries es fuel ltac:(lia) e He). lia.
  - match goal with H : isSymbolicLink _ = false |- _ => rewrite H end.
    match goal with H : isDirectory _ = true |- _ => rewrite H end.
    simpl in Hfuel. destruct fuel as [|fuel]; [lia|].
    simpl processDirectory.
    match goal with H : readdirSync fs _ = _ |- _ => rewrite H end.
    reflexivity.
Qed.

(** The walk of a root, in one equation: with fuel for the height of the
    tree, [processDirectory] throws the first error of the walk, and
    without one it returns the sums over the in-scope files and the number
    of subdirectories. *)
Lemma processDirectory_root (dir : jsstring) (t : node) (fuel : nat) :
  representsRoot path fs dir t ->
  height t <= fuel ->
  processDirectory path fs fuel dir
  = match firstError path dir t with
    | Some e => Throw e
    | None => Ok (totalsOf (inScopeMetrics path dir t) (subdirectories t))
    end.
Proof.
  intros Hrep Hfuel. destruct t as [e | | c | e | es | e]; simpl in Hrep;
    try contradiction; simpl in Hfuel; (destruct fuel as [|fuel]; [lia|]);
    simpl processDirectory.
  - destruct Hrep as [Hls Hes]. rewrite Hls. simpl bind.
    rewrite forEach_entries.
    + simpl firstError. destruct (firstOf _ es); reflexivity.
    + intros e He acc. rewrite Forall_forall in Hes.
      apply visitEntry_represents; [apply (Hes e He)|].
      pose proof (height_entries es fuel ltac:(lia) e He). lia.
  - rewrite Hrep. reflexivity.
Qed.

End Walk.

(* ===================================================================== *)
(** ** What the order of entries and the links do not change *)
(* ===================================================================== *)

Section TreeFacts.

Variable path : PathModule.

Lemma firstOf_Some {A : Type} (f : A -> option error) (l : list A) (e : error) :
  firstOf f l = Some e -> exists a, In a l /\ f a = Some e.
Proof.
  induction l as [|a l IH]; [discriminate|].
  rewrite firstOf_cons. destruct (f a) eqn:Ha.
  - intros [= ->]. exists a. split; [left; reflexivity | exact Ha].
  - intros H. destruct (IH H) as [b [Hb Hfb]]. exists b. split; [right|]; assumption.
Qed.

Lemma firstError_broken (t : node) :
  forall p e, firstError path p t = Some e ->
  exists q u, occurs path p t q u /\ broken path q u.
Proof.
  induction t as [e' | | c | e' | es IH | e'] using node_induction;
    intros p e H; simpl in H; try discriminate.
  - exists p, (Unstatable e'). split; [constructor | exact I].
  - exists p, (UnreadableFile e'). split; [constructor|].
    simpl. destruct (isValidFile path p); [reflexivity | discriminate].
  - apply firstOf_Some in H. destruct H as [[n c] [Hin Hc]].
    rewrite Forall_forall in IH.
    destruct (IH (n, c) Hin _ _ Hc) as [q [u [Hocc Hb]]].
    exists q, u. split; [|exact Hb].
    apply occurs_below with (n := n) (c := c); assumption.
  - exists p, (UnlistableDir e'). split; [constructor | exact I].
Qed.

Lemma broken_firstError (p q : jsstring) (t u : node) :
  occurs path p t q u -> broken path q u -> firstError path p t <> None.
Proof.
  induction 1 as [p t | p es n c q u Hin Hocc IH]; intros Hb.
  - destruct t; simpl in *; try contradiction; try discriminate.
    rewrite Hb. discriminate.
  - simpl. rewrite firstOf_None. intros Hall.
    apply (IH Hb). apply (Hall (n, c) Hin).
Qed.

Lemma eraseLinks_entries (p : jsstring) (es : list (jsstring * node)) :
  Forall (fun e => forall q,
    firstError path q (eraseLinks (snd e)) = firstError path q (snd e)
    /\ inScopeMetrics path q (eraseLinks (snd e)) = inScopeMetrics path q (snd e)
    /\ dirsIn (eraseLinks (snd e)) = dirsIn (snd e)
    /\ height (eraseLinks (snd e)) <= height (snd e)) es ->
  firstError path p (eraseLinks (Dir es)) = firstError path p (Dir es)
  /\ inScopeMetrics path p (eraseLinks (Dir es)) = inScopeMetrics path p (Dir es)
  /\ list_sum (map (fun e => dirsIn (snd e))
       (flat_map (fun e => match snd e with
                           | Symlink => []
                           | _ => [(fst e, eraseLinks (snd e))]
                           end) es))
     = list_sum (map (fun e => dirsIn (snd e)) es)
  /\ list_max (map (fun e => height (snd e))
       (flat_map (fun e => match snd e with
                           | Symlink => []
                           | _ => [(fst e, eraseLinks (snd e))]
                           end) es))
     <= list_max (map (fun e => height (snd e)) es).
Proof.
  simpl. unfold list_sum, list_max. induction 1 as [|[n c] es Hc Hes IH].
  - simpl. auto.
  - destruct IH as (I1 & I2 & I3 & I4).
    destruct (Hc (pjoin path p n)) as (C1 & C2 & C3 & C4). simpl in C1, C2, C3, C4.
    assert (Hcase : c = Symlink \/
      (match c with Symlink => [] | _ => [(n, eraseLinks c)] end
       = [(n, eraseLinks c)])) by (destruct c; auto).
    rewrite firstOf_cons. cbn [flat_map map fold_right fst snd].
    destruct Hcase as [-> | Heq].
    + cbn [app]. simpl firstError. simpl inScopeMetrics. simpl dirsIn.
      simpl height. repeat split; assumption.
    + rewrite Heq. cbn [app flat_map map fold_right fst snd].
      rewrite firstOf_cons. cbn [fst snd].
      rewrite C1, I1, C2, I2, C3, I3. repeat split. lia.
Qed.

Lemma eraseLinks_same (t : node) :
  forall p,
    firstError path p (eraseLinks t) = firstError path p t
    /\ inScopeMetrics path p (eraseLinks t) = inScopeMetrics path p t
    /\ dirsIn (eraseLinks t) = dirsIn t
    /\ height (eraseLinks t) <= height t.
Proof.
  induction t as [e | | c | e | es IH | e] using node_induction; intros p;
    try (simpl; auto; fail).
  destruct (eraseLinks_entries p es IH) as (H1 & H2 & H3 & H4).
  repeat split; try assumption.
  - simpl. rewrite H3. reflexivity.
  - simpl. lia.
Qed.

Lemma reorder_same_walk :
  (forall t t', reorder t t' -> forall p,
     (firstError path p t = None <-> firstError path p t' = None)
     /\ Permutation (inScopeMetrics path p t) (inScopeMetrics path p t')
     /\ dirsIn t = dirsIn t')
  /\ (forall es es', reorder_entries es es' -> forall p,
     (firstOf (fun e => firstError path (pjoin path p (fst e)) (snd e)) es = None
      <-> firstOf (fun e => firstError path (pjoin path p (fst e)) (snd e)) es' = None)
     /\ Permutation
          (flat_map (fun e => inScopeMetrics path (pjoin path p (fst e)) (snd e)) es)
          (flat_map (fun e => inScopeMetrics path (pjoin path p (fst e)) (snd e)) es')
     /\ list_sum (map (fun e => dirsIn (snd e)) es)
        = list_sum (map (fun e => dirsIn (snd e)) es')).
Proof.
  apply reorder_mutind.
  - intros t p. repeat split; auto.
  - intros es es' _ IH p. destruct (IH p) as (H1 & H2 & H3).
    simpl. repeat split; try tauto. congruence.
  - intros p. simpl. repeat split; auto.
  - intros n c c' l l' _ IHc _ IHl p.
    destruct (IHc (pjoin path p n)) as (C1 & C2 & C3).
    destruct (IHl p) as (L1 & L2 & L3).
    rewrite !firstOf_cons. unfold list_sum in *.
    cbn [flat_map map fold_right fst snd].
    repeat split.
    + destruct (firstError path (pjoin path p n) c),
        (firstError path (pjoin path p n) c'); try tauto;
        intros; exfalso; intuition discriminate.
    + destruct (firstError path (pjoin path p n) c),
        (firstError path (pjoin path p n) c'); try tauto;
        intros; exfalso; intuition discriminate.
    + apply Permutation_app; assumption.
    + lia.
  - intros a b l p. rewrite !firstOf_cons. unfold list_sum.
    cbn [flat_map map fold_right].
    repeat split.
    + destruct (firstError path _ (snd a)), (firstError path _ (snd b));
        auto; discriminate.
    + destruct (firstError path _ (snd a)), (firstError path _ (snd b));
        auto; discriminate.
    + apply Permutation_app_swap_app.
    + lia.
  - intros l1 l2 l3 _ IH1 _ IH2 p.
    destruct (IH1 p) as (A1 & A2 & A3). destruct (IH2 p) as (B1 & B2 & B3).
    repeat split; try tauto.
    + eapply Permutation_trans; eassumption.
    + congruence.
Qed.

Variable fs : FileSystem.

Lemma measured_entries (p : jsstring) (es : list (jsstring * node)) :
  (forall e, In e es ->
     firstError path (pjoin path p (fst e)) (snd e) = None ->
     Forall2 (fun q m => getFileMetrics fs q = Ok m)
       (inScopeFiles path (pjoin path p (fst e)) (snd e))
       (inScopeMetrics path (pjoin path p (fst e)) (snd e))) ->
  firstOf (fun e => firstError path (pjoin path p (fst e)) (snd e)) es = None ->
  Forall2 (fun q m => getFileMetrics fs q = Ok m)
    (flat_map (fun e => inScopeFiles path (pjoin path p (fst e)) (snd e)) es)
    (flat_map (fun e => inScopeMetrics path (pjoin path p (fst e)) (snd e)) es).
Proof.
  induction es as [|a es IH]; intros Hall Hnone; [constructor|].
  rewrite firstOf_None in Hnone. simpl. apply Forall2_app.
  - apply Hall; [left; reflexivity|]. apply Hnone. left. reflexivity.
  - apply IH.
    + intros e He. apply Hall. right. exact He.
    + rewrite firstOf_None. intros e He. apply Hnone. right. exact He.
Qed.

Lemma measured (t : node) :
  forall p, represents path fs p t -> firstError path p t = None ->
  Forall2 (fun q m => getFileMetrics fs q = Ok m)
    (inScopeFiles path p t) (inScopeMetrics path p t).
Proof.
  induction t as [e | | c | e | es IH | e] using node_induction;
    intros p Hrep Hnone; inversion Hrep; subst; simpl in *;
    try discriminate; try constructor.
  - destruct (isValidFile path p); constructor; [|constructor].
    apply getFileMetrics_read. assumption.
  - destruct (isValidFile path p); [discriminate | constructor].
  - apply measured_entries; [|exact Hnone].
    intros e He Hne.
    match goal with H : Forall (fun e => represents _ _ _ _) es |- _ =>
      rename H into Hes end.
    rewrite Forall_forall in IH, Hes.
    apply (IH e He); [apply (Hes e He) | exact Hne].
Qed.

Lemma measured_root (p : jsstring) (t : node) :
  representsRoot path fs p t -> firstError path p t = None ->
  Forall2 (fun q m => getFileMetrics fs q = Ok m)
    (inScopeFiles path p t) (inScopeMetrics path p t).
Proof.
  intros Hrep Hnone. destruct t as [e | | c | e | es | e]; simpl in Hrep;
    try contradiction; [|discriminate].
  destruct Hrep as [_ Hes]. apply measured_entries; [|exact Hnone].
  intros e He Hne. rewrite Forall_forall in Hes.
  apply measured; [apply (Hes e He) | exact Hne].
Qed.

End TreeFacts.

(* ===================================================================== *)
(** ** The fixtures are what they are said to be *)
(* ===================================================================== *)

Ltac show_entry :=
  first
    [ eapply rep_symlink; [reflexivity | reflexivity]
    | eapply rep_file; [reflexivity | reflexivity | reflexivity | reflexivity]
    | eapply rep_unstatable; reflexivity
    | eapply rep_unreadable; [reflexivity | reflexivity | reflexivity | reflexivity]
    | eapply rep_unlistable; [reflexivity | reflexivity | reflexivity | reflexivity]
    | eapply rep_dir; [reflexivity | reflexivity | reflexivity | reflexivity | ] ].

Ltac show_tree :=
  repeat first [ apply Forall_nil | apply Forall_cons | show_entry ].

Lemma exampleFS_tree : representsRoot posix exampleFS (js "/r") exampleTree.
Proof. split; [reflexivity | show_tree]. Qed.

Lemma projectFS_tree : representsRoot posix projectFS (js "/p") projectTree.
Proof. split; [reflexivity | show_tree]. Qed.

Lemma projectFS_flipped_tree :
  representsRoot posix projectFS_flipped (js "/p") projectTree_flipped.
Proof. split; [reflexivity | show_tree]. Qed.

Lemma cycleFS_tree : representsRoot posix cycleFS (js "/r") cycleTree.
Proof. split; [reflexivity | show_tree]. Qed.

Lemma cycleFS_unlinked_tree :
  representsRoot posix cycleFS_unlinked (js "/r") (eraseLinks cycleTree).
Proof. split; [reflexivity | show_tree]. Qed.

Lemma unsearchableFS_tree :
  representsRoot posix unsearchableFS (js "/r") unsearchableTree.
Proof. split; [reflexivity | show_tree]. Qed.

Lemma reorder_of_Permutation (l l' : list (jsstring * node)) :
  Permutation l l' -> reorder_entries l l'.
Proof.
  induction 1 as [| [n c] l l' _ IH | a b l | l1 l2 l3 _ IH1 _ IH2].
  - apply reorder_nil.
  - apply reorder_cons; [apply reorder_same | exact IH].
  - apply reorder_swap.
  - apply reorder_trans with l2; assumption.
Qed.

Lemma project_reordered : reorder projectTree projectTree_flipped.
Proof.
  apply reorder_dir.
  apply reorder_trans with
    [(js "a.js", File exampleContent);
     (js "README.md", File (js "# notes"));
     (js "old", Symlink);
     (js "node_modules", Dir [(js "x.js", File (js "let y;"))]);
     (js "src", Dir [(js "deep", Dir []);
                     (js "b.ts", File (js "let z = 2;"))])].
  - repeat (apply reorder_cons; [apply reorder_same|]).
    apply reorder_cons; [|apply reorder_nil].
    apply reorder_dir. apply reorder_swap.
  - apply reorder_of_Permutation. apply Permutation_rev.
Qed.

(* ===================================================================== *)
(** ** Claims about [getFileMetrics] and [isValidFile] *)
(* ===================================================================== *)

(** C2, as stated, fails on the example file: the claim has one blank line
    and one mixed line where [getFileMetrics] counts two of each (the
    empty piece after the final newline is blank, and the header comment
    contains a marker). *)
Lemma example_metrics_counterexample :
  ~ (exists m,
        getFileMetrics exampleFS (js "/r/a.js") = Ok m
        /\ FileMetrics.totalLines m = 5
        /\ FileMetrics.blankLines m = 1
        /\ FileMetrics.commentLines m = 1
        /\ FileMetrics.lines m = 2
        /\ FileMetrics.codeAndCommentLines m = 1
        /\ FileMetrics.characters m
           = JsString.length (exampleLine2 ++ LF :: exampleLine4)).
Proof.
  intros (m & Hm & _ & Hblank & _). vm_compute in Hm.
  injection Hm as <-. discriminate Hblank.
Qed.

(** C2, amended: for the example file (four lines, the third one empty,
    and a final newline) [getFileMetrics] returns totalLines = 5,
    blankLines = 2, commentLines = 1, codeLines = 2, mixedLines = 2, and
    a characterCount of 40, the length of lines 2 and 4 joined by one
    newline. *)
Theorem example_metrics (fs : FileSystem) (filePath : jsstring) :
  readFileSync fs filePath = Ok exampleContent ->
  exists m,
    getFileMetrics fs filePath = Ok m
    /\ FileMetrics.totalLines m = 5
    /\ FileMetrics.blankLines m = 2
    /\ FileMetrics.commentLines m = 1
    /\ FileMetrics.lines m = 2
    /\ FileMetrics.codeAndCommentLines m = 2
    /\ FileMetrics.characters m
       = JsString.length (exampleLine2 ++ LF :: exampleLine4)
    /\ FileMetrics.characters m = 40.
Proof.
  intros H. exists (measure exampleContent). split.
  - apply getFileMetrics_read. exact H.
  - vm_compute. repeat split.
Qed.

Lemma example_metrics_witness :
  exists m,
    getFileMetrics exampleFS (js "/r/a.js") = Ok m
    /\ FileMetrics.totalLines m = 5
    /\ FileMetrics.blankLines m = 2
    /\ FileMetrics.commentLines m = 1
    /\ FileMetrics.lines m = 2
    /\ FileMetrics.codeAndCommentLines m = 2
    /\ FileMetrics.characters m
       = JsString.length (exampleLine2 ++ LF :: exampleLine4)
    /\ FileMetrics.characters m = 40.
Proof.
  apply (example_metrics exampleFS (js "/r/a.js")). reflexivity.
Defined.

(** C3: [getFileMetrics] counts, among the lines of the file, those that
    its four callbacks select, and the callbacks select the classes of
    the specification: comment when the trimmed line starts with [//] or
    [/*] or ends with [*/]; code when the line is neither blank nor
    comment; blank when the trimmed line is empty; mixed when the line is
    not blank and contains one of the three markers anywhere. *)
Theorem line_classification (fs : FileSystem) (filePath content : jsstring) :
  readFileSync fs filePath = Ok content ->
  (exists m,
      getFileMetrics fs filePath = Ok m
      /\ FileMetrics.commentLines m
         = List.length (filter isCommentLine (JsString.split LF content))
      /\ FileMetrics.lines m
         = List.length (filter nonCommentNonEmpty (JsString.split LF content))
      /\ FileMetrics.characters m
         = JsString.length
             (JsString.join LF (filter nonCommentNonEmpty (JsString.split LF content)))
      /\ FileMetrics.blankLines m
         = List.length (filter isBlankLine (JsString.split LF content))
      /\ FileMetrics.codeAndCommentLines m
         = List.length (filter isCodeAndCommentLine (JsString.split LF content)))
  /\ (forall line,
        (isCommentLine line = true <-> CommentClassified line)
        /\ (nonCommentNonEmpty line = true <-> CodeClassified line)
        /\ (isBlankLine line = true <-> BlankClassified line)
        /\ (isCodeAndCommentLine line = true <-> MixedClassified line)).
Proof.
  intros H. split.
  - exists (measure content). split; [apply getFileMetrics_read; exact H|].
    repeat split.
  - intros line. split; [|split; [|split]].
    + apply isCommentLine_spec.
    + apply nonCommentNonEmpty_spec.
    + apply isBlankLine_spec.
    + apply isCodeAndCommentLine_spec.
Qed.

Lemma line_classification_witness :
  exists m,
    getFileMetrics exampleFS (js "/r/a.js") = Ok m
    /\ FileMetrics.commentLines m
       = List.length (filter isCommentLine (JsString.split LF exampleContent)).
Proof.
  destruct (line_classification exampleFS (js "/r/a.js") exampleContent eq_refl)
    as [[m [Hm [Hc _]]] _].
  exists m. split; [exact Hm | exact Hc].
Defined.

(** C10: the blank, comment and code classes of [getFileMetrics] are a
    partition of the lines of the file.  The record returned for a file
    counts, among the pieces of its content split at line feeds, those
    that each of the three callbacks selects; each line is selected by
    exactly one of them; the lines of the file are, up to order, the
    blank ones, the comment ones and the code ones put together; so
    blankLines + commentLines + codeLines = totalLines. *)
Theorem three_classes_partition (fs : FileSystem) (filePath content : jsstring) :
  readFileSync fs filePath = Ok content ->
  exists m,
    getFileMetrics fs filePath = Ok m
    /\ FileMetrics.totalLines m = List.length (JsString.split LF content)
    /\ FileMetrics.blankLines m
       = List.length (filter isBlankLine (JsString.split LF content))
    /\ FileMetrics.commentLines m
       = List.length (filter isCommentLine (JsString.split LF content))
    /\ FileMetrics.lines m
       = List.length (filter nonCommentNonEmpty (JsString.split LF content))
    /\ (forall line,
          Nat.b2n (isBlankLine line) + Nat.b2n (isCommentLine line)
          + Nat.b2n (nonCommentNonEmpty line) = 1)
    /\ Permutation (JsString.split LF content)
         (filter isBlankLine (JsString.split LF content)
          ++ filter isCommentLine (JsString.split LF content)
          ++ filter nonCommentNonEmpty (JsString.split LF content))
    /\ FileMetrics.blankLines m + FileMetrics.commentLines m + FileMetrics.lines m
       = FileMetrics.totalLines m.
Proof.
  intros H. exists (measure content).
  split; [apply getFileMetrics_read; exact H|].
  unfold measure. cbn [FileMetrics.totalLines FileMetrics.blankLines
    FileMetrics.commentLines FileMetrics.lines].
  split; [reflexivity|]. split; [reflexivity|]. split; [reflexivity|].
  split; [reflexivity|]. split; [exact one_class|]. split.
  - apply filter_three_way_perm. exact one_class.
  - apply filter_three_way. exact one_class.
Qed.

Lemma three_classes_partition_witness :
  exists m,
    getFileMetrics exampleFS (js "/r/a.js") = Ok m
    /\ FileMetrics.totalLines m = List.length (JsString.split LF exampleContent)
    /\ FileMetrics.blankLines m
       = List.length (filter isBlankLine (JsString.split LF exampleContent))
    /\ FileMetrics.commentLines m
       = List.length (filter isCommentLine (JsString.split LF exampleContent))
    /\ FileMetrics.lines m
       = List.length (filter nonCommentNonEmpty (JsString.split LF exampleContent))
    /\ (forall line,
          Nat.b2n (isBlankLine line) + Nat.b2n (isCommentLine line)
          + Nat.b2n (nonCommentNonEmpty line) = 1)
    /\ Permutation (JsString.split LF exampleContent)
         (filter isBlankLine (JsString.split LF exampleContent)
          ++ filter isCommentLine (JsString.split LF exampleContent)
          ++ filter nonCommentNonEmpty (JsString.split LF exampleContent))
    /\ FileMetrics.blankLines m + FileMetrics.commentLines m + FileMetrics.lines m
       = FileMetrics.totalLines m.
Proof.
  apply (three_classes_partition exampleFS (js "/r/a.js") exampleContent).
  reflexivity.
Defined.

(** C4: [isValidFile] accepts a path exactly when its extension is [.js]
    or [.ts] or its base name is [schema.prisma], and none of
    [node_modules], [dist], [tests] is a substring of the whole path; so
    [/tmp/xnode_modulesy/app.js] is refused, whatever the [path] module
    says of its extension. *)
Theorem isValidFile_spec :
  (forall (path : PathModule) (p : jsstring),
      isValidFile path p = true <->
      (extname path p = js ".js" \/ extname path p = js ".ts"
       \/ basename path p = js "schema.prisma")
      /\ (forall dir, In dir [js "node_modules"; js "dist"; js "tests"] ->
          ~ Contains p dir))
  /\ (forall path : PathModule,
        isValidFile path (js "/tmp/xnode_modulesy/app.js") = false).
Proof.
  split.
  - intros path p. unfold isValidFile. cbv zeta.
    rewrite andb_true_iff, !orb_true_iff, !eqb_eq, negb_true_iff, existsb_false.
    unfold prismaSchema, defaultIgnoreDirs.
    split; intros [Hext Hdirs]; (split; [tauto|]); intros dir Hdir.
    + rewrite <- includes_spec, (Hdirs dir Hdir). discriminate.
    + apply not_true_is_false. rewrite includes_spec. apply Hdirs. exact Hdir.
  - intros path. unfold isValidFile. cbv zeta.
    apply andb_false_intro2. reflexivity.
Qed.

(* ===================================================================== *)
(** ** Claims about [processDirectory] *)
(* ===================================================================== *)

(** C1, as stated, fails: in the directory that holds the example file
    alone, the aggregate [totalLines] is 2, the number of code lines,
    while the file's own [totalLines] is 5. *)
Lemma aggregate_totalLines_counterexample :
  exists a m,
    processDirectory posix exampleFS 1 (js "/r") = Ok a
    /\ inScopeFiles posix (js "/r") exampleTree = [js "/r/a.js"]
    /\ getFileMetrics exampleFS (js "/r/a.js") = Ok m
    /\ Aggregate.totalLines a = 2
    /\ list_sum (map FileMetrics.totalLines [m]) = 5
    /\ Aggregate.totalLines a <> list_sum (map FileMetrics.totalLines [m]).
Proof.
  exists (totalsOf [measure exampleContent] 0), (measure exampleContent).
  repeat split; try (vm_compute; reflexivity).
  vm_compute. discriminate.
Qed.

(** C1, amended: when no call of the walk fails, [processDirectory]
    returns an aggregate with five sums over the in-scope files of the
    subtree, each file measured by [getFileMetrics]: [totalLines] is the
    sum of the files' code lines ([lines]), [totalCharacters] of their
    [characters], and [commentLines], [blankLines], [codeAndCommentLines]
    of the fields of the same name; [fileCount] is the number of in-scope
    files.  The files' own [totalLines] is not part of the aggregate. *)
Theorem aggregate_sums_over_files
    (path : PathModule) (fs : FileSystem) (dir : jsstring) (t : node) (fuel : nat) :
  representsRoot path fs dir t ->
  faultless path dir t ->
  height t <= fuel ->
  exists a ms,
    processDirectory path fs fuel dir = Ok a
    /\ Forall2 (fun q m => getFileMetrics fs q = Ok m) (inScopeFiles path dir t) ms
    /\ Aggregate.totalLines a = list_sum (map FileMetrics.lines ms)
    /\ Aggregate.totalCharacters a = list_sum (map FileMetrics.characters ms)
    /\ Aggregate.commentLines a = list_sum (map FileMetrics.commentLines ms)
    /\ Aggregate.blankLines a = list_sum (map FileMetrics.blankLines ms)
    /\ Aggregate.codeAndCommentLines a
       = list_sum (map FileMetrics.codeAndCommentLines ms)
    /\ Aggregate.fileCount a = List.length (inScopeFiles path dir t).
Proof.
  intros Hrep Hok Hfuel. unfold faultless in Hok.
  rewrite (processDirectory_root path fs dir t fuel Hrep Hfuel), Hok.
  pose proof (measured_root path fs dir t Hrep Hok) as Hms.
  exists (totalsOf (inScopeMetrics path dir t) (subdirectories t)),
    (inScopeMetrics path dir t).
  repeat split; try assumption.
  simpl. symmetry. exact (Forall2_length Hms).
Qed.

Lemma aggregate_sums_over_files_witness :
  exists a ms,
    processDirectory posix projectFS 3 (js "/p") = Ok a
    /\ Forall2 (fun q m => getFileMetrics projectFS q = Ok m)
         (inScopeFiles posix (js "/p") projectTree) ms
    /\ Aggregate.totalLines a = list_sum (map FileMetrics.lines ms)
    /\ Aggregate.totalCharacters a = list_sum (map FileMetrics.characters ms)
    /\ Aggregate.commentLines a = list_sum (map FileMetrics.commentLines ms)
    /\ Aggregate.blankLines a = list_sum (map FileMetrics.blankLines ms)
    /\ Aggregate.codeAndCommentLines a
       = list_sum (map FileMetrics.codeAndCommentLines ms)
    /\ Aggregate.fileCount a = List.length (inScopeFiles posix (js "/p") projectTree).
Proof.
  apply (aggregate_sums_over_files posix projectFS (js "/p") projectTree 3).
  - exact projectFS_tree.
  - reflexivity.
  - vm_compute. lia.
Defined.

(** C5: a symbolic link adds nothing.  The walk of a tree and the walk of
    the same tree without its links end alike, with the same aggregate or
    the same error; the walk returns when no call fails, with fuel for
    the height of the tree, in which a link is a leaf whatever it points
    to; and the visit of a link leaves every counter as it was and makes
    no recursive call, whatever that call would do. *)
Theorem symlinks_are_skipped
    (path : PathModule) (fs fs' : FileSystem) (dir : jsstring) (t : node)
    (fuel fuel' : nat) :
  representsRoot path fs dir t ->
  representsRoot path fs' dir (eraseLinks t) ->
  height t <= fuel ->
  height t <= fuel' ->
  processDirectory path fs fuel dir = processDirectory path fs' fuel' dir
  /\ (faultless path dir t -> exists a, processDirectory path fs fuel dir = Ok a)
  /\ (forall recur d acc file st,
        lstatSync fs (pjoin path d file) = Ok st ->
        isSymbolicLink st = true ->
        visitEntry path fs recur d acc file = Ok acc).
Proof.
  intros Hrep Hrep' Hfuel Hfuel'.
  destruct (eraseLinks_same path t dir) as (H1 & H2 & H3 & H4).
  split; [|split].
  - rewrite (processDirectory_root path fs dir t fuel Hrep Hfuel).
    rewrite (processDirectory_root path fs' dir (eraseLinks t) fuel' Hrep')
      by lia.
    rewrite H1, H2.
    replace (subdirectories (eraseLinks t)) with (subdirectories t);
      [reflexivity|].
    destruct t; simpl in Hrep; try contradiction; [|reflexivity].
    simpl in H3. simpl. lia.
  - intros Hok. unfold faultless in Hok.
    rewrite (processDirectory_root path fs dir t fuel Hrep Hfuel), Hok.
    eexists. reflexivity.
  - intros recur d acc file st Hst Hlink.
    unfold visitEntry. cbv zeta. rewrite Hst. simpl. rewrite Hlink.
    reflexivity.
Qed.

Lemma symlinks_are_skipped_witness :
  processDirectory posix cycleFS 1 (js "/r")
  = processDirectory posix cycleFS_unlinked 1 (js "/r")
  /\ (faultless posix (js "/r") cycleTree ->
      exists a, processDirectory posix cycleFS 1 (js "/r") = Ok a)
  /\ (forall recur d acc file st,
        lstatSync cycleFS (pjoin posix d file) = Ok st ->
        isSymbolicLink st = true ->
        visitEntry posix cycleFS recur d acc file = Ok acc).
Proof.
  apply (symlinks_are_skipped posix cycleFS cycleFS_unlinked (js "/r") cycleTree 1 1).
  - exact cycleFS_tree.
  - exact cycleFS_unlinked_tree.
  - vm_compute. lia.
  - vm_compute. lia.
Defined.

(** C6: when no call of the walk fails, the [directoryCount] that
    [processDirectory] returns is the number of directories anywhere
    below the root, links and the root itself excluded, each counted
    once at whatever depth. *)
Theorem directoryCount_is_subdirectories
    (path : PathModule) (fs : FileSystem) (dir : jsstring) (t : node) (fuel : nat) :
  representsRoot path fs dir t ->
  faultless path dir t ->
  height t <= fuel ->
  exists a,
    processDirectory path fs fuel dir = Ok a
    /\ Aggregate.directoryCount a = subdirectories t.
Proof.
  intros Hrep Hok Hfuel. unfold faultless in Hok.
  rewrite (processDirectory_root path fs dir t fuel Hrep Hfuel), Hok.
  eexists. split; reflexivity.
Qed.

Lemma directoryCount_is_subdirectories_witness :
  exists a,
    processDirectory posix projectFS 3 (js "/p") = Ok a
    /\ Aggregate.directoryCount a = subdirectories projectTree.
Proof.
  apply (directoryCount_is_subdirectories posix projectFS (js "/p") projectTree 3).
  - exact projectFS_tree.
  - reflexivity.
  - vm_compute. lia.
Defined.

(** C7: the order of the listings does not matter.  When two file
    systems show the same tree up to the order in which each directory
    lists its entries, and no call of the walk fails, [processDirectory]
    returns the same aggregate on both, [fileCount] and [directoryCount]
    included. *)
Theorem listing_order_is_irrelevant
    (path : PathModule) (fs fs' : FileSystem) (dir : jsstring) (t t' : node)
    (fuel fuel' : nat) :
  reorder t t' ->
  representsRoot path fs dir t ->
  representsRoot path fs' dir t' ->
  faultless path dir t ->
  height t <= fuel ->
  height t' <= fuel' ->
  exists a,
    processDirectory path fs fuel dir = Ok a
    /\ processDirectory path fs' fuel' dir = Ok a.
Proof.
  intros Hre Hrep Hrep' Hok Hfuel Hfuel'. unfold faultless in Hok.
  destruct (proj1 (reorder_same_walk path) t t' Hre dir) as (H1 & H2 & H3).
  rewrite (processDirectory_root path fs dir t fuel Hrep Hfuel), Hok.
  rewrite (processDirectory_root path fs' dir t' fuel' Hrep' Hfuel').
  rewrite (proj1 H1 Hok).
  eexists. split; [reflexivity|]. f_equal.
  replace (subdirectories t') with (subdirectories t).
  - symmetry. apply totalsOf_perm. exact H2.
  - destruct t, t'; simpl in Hrep, Hrep'; try contradiction;
      simpl in H3; simpl; try lia; try discriminate.
Qed.

Lemma listing_order_is_irrelevant_witness :
  exists a,
    processDirectory posix projectFS 3 (js "/p") = Ok a
    /\ processDirectory posix projectFS_flipped 4 (js "/p") = Ok a.
Proof.
  apply (listing_order_is_irrelevant posix projectFS projectFS_flipped (js "/p")
           projectTree projectTree_flipped 3 4).
  - exact project_reordered.
  - exact projectFS_tree.
  - exact projectFS_flipped_tree.
  - reflexivity.
  - vm_compute. lia.
  - vm_compute. lia.
Defined.

(** C9, as stated, fails: in a directory that can be listed but not
    searched, the stat of an entry throws and so does the walk, yet no
    directory fails to be listed and no eligible file fails to be
    read. *)
Lemma walk_failure_counterexample :
  representsRoot posix unsearchableFS (js "/r") unsearchableTree
  /\ processDirectory posix unsearchableFS 1 (js "/r") = Throw EACCES
  /\ ~ (exists q u,
          occurs posix (js "/r") unsearchableTree q u
          /\ brokenAsSpecified posix q u).
Proof.
  split; [exact unsearchableFS_tree|]. split; [reflexivity|].
  intros (q & u & Hocc & Hb). unfold unsearchableTree in Hocc.
  inversion Hocc as [| p es n c q' u' Hin Hsub]; subst.
  - exact Hb.
  - destruct Hin as [Heq | []]. injection Heq as <- <-.
    inversion Hsub; subst. exact Hb.
Qed.

(** C9, amended: with fuel for the height of the tree, [processDirectory]
    throws exactly when the walk meets an entry on which a call fails: a
    directory, the root included, that cannot be listed, an entry of a
    listed directory whose [lstatSync] fails, or an eligible file that
    cannot be read; otherwise it returns an aggregate.  A throw carries
    no aggregate: there is no partial result. *)
Theorem walk_fails_exactly_when_broken
    (path : PathModule) (fs : FileSystem) (dir : jsstring) (t : node) (fuel : nat) :
  representsRoot path fs dir t ->
  height t <= fuel ->
  ((exists e, processDirectory path fs fuel dir = Throw e)
   <-> exists q u, occurs path dir t q u /\ broken path q u)
  /\ ((exists a, processDirectory path fs fuel dir = Ok a)
      <-> ~ exists q u, occurs path dir t q u /\ broken path q u).
Proof.
  intros Hrep Hfuel.
  rewrite (processDirectory_root path fs dir t fuel Hrep Hfuel).
  destruct (firstError path dir t) as [e|] eqn:Hfirst.
  - pose proof (firstError_broken path t dir e Hfirst) as Hb.
    split; split.
    + intros _. exact Hb.
    + intros _. exists e. reflexivity.
    + intros [a Ha]. discriminate Ha.
    + intros Hno. contradiction.
  - assert (Hno : ~ exists q u, occurs path dir t q u /\ broken path q u).
    { intros (q & u & Hocc & Hb).
      apply (broken_firstError path dir q t u Hocc Hb). exact Hfirst. }
    split; split.
    + intros [e He]. discriminate He.
    + intros Hb. contradiction.
    + intros _. exact Hno.
    + intros _. eexists. reflexivity.
Qed.

Lemma walk_fails_exactly_when_broken_witness :
  ((exists e, processDirectory posix unsearchableFS 1 (js "/r") = Throw e)
   <-> exists q u, occurs posix (js "/r") unsearchableTree q u /\ broken posix q u)
  /\ ((exists a, processDirectory posix unsearchableFS 1 (js "/r") = Ok a)
      <-> ~ exists q u, occurs posix (js "/r") unsearchableTree q u /\ broken posix q u).
Proof.
  apply (walk_fails_exactly_when_broken posix unsearchableFS (js "/r")
           unsearchableTree 1).
  - exact unsearchableFS_tree.
  - vm_compute. lia.
Defined.

(* ===================================================================== *)
(** ** Claims about [printMetrics] *)
(* ===================================================================== *)

(** C8: whenever [fileCount] is zero, each of the five averages computed
    by [printMetrics] is exactly the number 0, which is not NaN; no
    division takes place. *)
Theorem averages_zero_when_no_files (metrics : Aggregate.t) :
  Aggregate.fileCount metrics = 0 ->
  Forall (fun average => average = 0%float /\ PrimFloat.is_nan average = false)
    [Averages.avgLinesPerFile (printMetrics_averages metrics);
     Averages.avgCharactersPerFile (printMetrics_averages metrics);
     Averages.avgCommentLinesPerFile (printMetrics_averages metrics);
     Averages.avgBlankLinesPerFile (printMetrics_averages metrics);
     Averages.avgCodeAndCommentLinesPerFile (printMetrics_averages metrics)].
Proof.
  intros H. unfold printMetrics_averages. cbn. rewrite H. cbn.
  repeat constructor.
Qed.

Lemma averages_zero_when_no_files_witness :
  Forall (fun average => average = 0%float /\ PrimFloat.is_nan average = false)
    [Averages.avgLinesPerFile (printMetrics_averages (Aggregate.Build_t 7 40 1 2 2 0 3));
     Averages.avgCharactersPerFile (printMetrics_averages (Aggregate.Build_t 7 40 1 2 2 0 3));
     Averages.avgCommentLinesPerFile (printMetrics_averages (Aggregate.Build_t 7 40 1 2 2 0 3));
     Averages.avgBlankLinesPerFile (printMetrics_averages (Aggregate.Build_t 7 40 1 2 2 0 3));
     Averages.avgCodeAndCommentLinesPerFile
       (printMetrics_averages (Aggregate.Build_t 7 40 1 2 2 0 3))].
Proof.
  apply (averages_zero_when_no_files (Aggregate.Build_t 7 40 1 2 2 0 3)).
  reflexivity.
Defined.

(* ===================================================================== *)
(** ** More on [getFileMetrics] *)
(* ===================================================================== *)

Lemma split_length (sep : N) (s : jsstring) :
  List.length (JsString.split sep s) = S (count_occ N.eq_dec s sep).
Proof.
  induction s as [|c s IH]; [reflexivity|].
  simpl. pose proof (split_nonempty sep s) as Hne.
  destruct (N.eqb_spec c sep) as [Heq|Hneq], (N.eq_dec c sep) as [Heq'|Hneq'];
    try contradiction.
  - simpl. rewrite IH. reflexivity.
  - destruct (JsString.split sep s) as [|q rest]; [congruence|].
    simpl in *. exact IH.
Qed.

Lemma join_length (sep : N) (l : list jsstring) :
  List.length (JsString.join sep l)
  = list_sum (map (@List.length N) l) + (List.length l - 1).
Proof.
  induction l as [|p rest IH]; [reflexivity|].
  destruct rest as [|q r].
  - simpl. lia.
  - change (JsString.join sep (p :: q :: r))
      with (p ++ sep :: JsString.join sep (q :: r)).
    rewrite length_app. cbn [List.length]. rewrite IH.
    cbn [map list_sum fold_right List.length]. unfold list_sum. lia.
Qed.

Lemma filter_length_imp {A : Type} (f g : A -> bool) (l : list A) :
  (forall x, f x = true -> g x = true) ->
  List.length (filter f l) <= List.length (filter g l).
Proof.
  intros H. induction l as [|a l IH]; [reflexivity|].
  simpl. specialize (H a). destruct (f a).
  - rewrite H by reflexivity. simpl. lia.
  - destruct (g a); simpl; lia.
Qed.

Lemma filter_length_or {A : Type} (f g h : A -> bool) (l : list A) :
  (forall x, f x = true -> g x = true \/ h x = true) ->
  List.length (filter f l)
  <= List.length (filter g l) + List.length (filter h l).
Proof.
  intros H. induction l as [|a l IH]; [simpl; lia|].
  simpl. specialize (H a). destruct (f a).
  - destruct (H eq_refl) as [-> | ->]; destruct (g a), (h a); simpl; lia.
  - destruct (g a), (h a); simpl; lia.
Qed.

Lemma filter_sum_le {A : Type} (f : A -> bool) (g : A -> nat) (l : list A) :
  list_sum (map g (filter f l)) <= list_sum (map g l)
  /\ List.length (filter f l) <= List.length l.
Proof.
  induction l as [|a l [IH1 IH2]]; [simpl; lia|].
  simpl. destruct (f a); simpl; lia.
Qed.

Lemma filter_sum_ge {A : Type} (f : A -> bool) (g : A -> nat) (l : list A) :
  (forall x, f x = true -> 1 <= g x) ->
  List.length (filter f l) <= list_sum (map g (filter f l)).
Proof.
  intros H. induction l as [|a l IH]; [reflexivity|].
  simpl. destruct (f a) eqn:Ha; [|exact IH].
  simpl. specialize (H a Ha). lia.
Qed.

(** A comment line is counted as a mixed line too. *)
Lemma comment_is_mixed (line : jsstring) :
  isCommentLine line = true -> isCodeAndCommentLine line = true.
Proof.
  unfold isCommentLine, isCodeAndCommentLine. cbv zeta.
  rewrite !orb_true_iff, andb_true_iff, !orb_true_iff.
  rewrite !startsWith_spec, endsWith_spec, !includes_spec.
  unfold StartsWith, EndsWith, Contains.
  intros [[[r H] | [r H]] | [r H]]; rewrite H; split.
  - reflexivity.
  - left. left. exists [], r. reflexivity.
  - reflexivity.
  - left. right. exists [], r. reflexivity.
  - destruct r; reflexivity.
  - right. exists r, []. reflexivity.
Qed.

(** A mixed line is not blank: it is a comment line or a code line. *)
Lemma mixed_is_comment_or_code (line : jsstring) :
  isCodeAndCommentLine line = true ->
  isCommentLine line = true \/ nonCommentNonEmpty line = true.
Proof.
  rewrite nonCommentNonEmpty_split.
  unfold isCodeAndCommentLine, isBlankLine. cbv zeta.
  rewrite andb_true_iff. intros [-> _].
  destruct (isCommentLine line); [left | right]; reflexivity.
Qed.

Lemma code_line_nonempty (line : jsstring) :
  nonCommentNonEmpty line = true -> 1 <= List.length line.
Proof.
  destruct line as [|c line]; [discriminate | simpl; lia].
Qed.

Lemma trimStart_blank (s : jsstring) :
  JsString.trimStart s = [] <-> forallb JsString.isWhiteSpace s = true.
Proof.
  induction s as [|c s IH]; simpl; [tauto|].
  destruct (JsString.isWhiteSpace c); simpl; [exact IH|].
  split; discriminate.
Qed.

Lemma forallb_rev {A : Type} (f : A -> bool) (l : list A) :
  forallb f (rev l) = forallb f l.
Proof.
  induction l as [|a l IH]; [reflexivity|].
  simpl. rewrite forallb_app, IH. simpl. rewrite andb_true_r. apply andb_comm.
Qed.

Lemma trimStart_blank_prefix (a s : jsstring) :
  forallb JsString.isWhiteSpace a = true ->
  JsString.trimStart (a ++ s) = JsString.trimStart s.
Proof.
  induction a as [|c a IH]; [reflexivity|].
  simpl. intros H. apply andb_true_iff in H. destruct H as [-> H].
  apply IH. exact H.
Qed.

Lemma trimStart_app (s b : jsstring) :
  JsString.trimStart (s ++ b)
  = if forallb JsString.isWhiteSpace s then JsString.trimStart b
    else JsString.trimStart s ++ b.
Proof.
  induction s as [|c s IH]; [reflexivity|].
  simpl. destruct (JsString.isWhiteSpace c); simpl; [exact IH | reflexivity].
Qed.

Lemma trimStart_not_blank (s : jsstring) :
  forallb JsString.isWhiteSpace s = false ->
  forallb JsString.isWhiteSpace (JsString.trimStart s) = false.
Proof.
  induction s as [|c s IH]; [discriminate|].
  simpl. destruct (JsString.isWhiteSpace c) eqn:Hc; simpl.
  - exact IH.
  - rewrite Hc. reflexivity.
Qed.

Lemma trimEnd_blank_suffix (s b : jsstring) :
  forallb JsString.isWhiteSpace b = true ->
  JsString.trimEnd (s ++ b) = JsString.trimEnd s.
Proof.
  intros H. unfold JsString.trimEnd. rewrite rev_app_distr.
  rewrite trimStart_blank_prefix; [reflexivity|].
  rewrite forallb_rev. exact H.
Qed.

Lemma trim_blank (s : jsstring) :
  JsString.trim s = [] <-> forallb JsString.isWhiteSpace s = true.
Proof.
  unfold JsString.trim, JsString.trimEnd. split.
  - intros H. apply (f_equal (@rev N)) in H. rewrite rev_involutive in H.
    simpl in H. apply trimStart_blank in H. rewrite forallb_rev in H.
    destruct (forallb JsString.isWhiteSpace s) eqn:Hs; [reflexivity|].
    rewrite (trimStart_not_blank s Hs) in H. discriminate.
  - intros H. apply trimStart_blank in H. rewrite H. reflexivity.
Qed.

(** White space around a line is not seen by [trim]. *)
Lemma trim_padding (a s b : jsstring) :
  forallb JsString.isWhiteSpace a = true ->
  forallb JsString.isWhiteSpace b = true ->
  JsString.trim (a ++ s ++ b) = JsString.trim s.
Proof.
  intros Ha Hb. unfold JsString.trim.
  rewrite (trimStart_blank_prefix a (s ++ b) Ha), trimStart_app.
  destruct (forallb JsString.isWhiteSpace s) eqn:Hs.
  - apply trimStart_blank in Hb, Hs. rewrite Hb, Hs. reflexivity.
  - apply trimEnd_blank_suffix. exact Hb.
Qed.

(** X1: the number of lines of a file is one more than the number of
    line feeds in it; the empty file has one line. *)
Theorem totalLines_counts_line_feeds (fs : FileSystem) (filePath content : jsstring) :
  readFileSync fs filePath = Ok content ->
  exists m,
    getFileMetrics fs filePath = Ok m
    /\ FileMetrics.totalLines m = S (count_occ N.eq_dec content LF).
Proof.
  intros H. exists (measure content).
  split; [apply getFileMetrics_read; exact H|].
  apply split_length.
Qed.

Lemma totalLines_counts_line_feeds_witness :
  exists m,
    getFileMetrics exampleFS (js "/r/a.js") = Ok m
    /\ FileMetrics.totalLines m = S (count_occ N.eq_dec exampleContent LF).
Proof.
  apply (totalLines_counts_line_feeds exampleFS (js "/r/a.js") exampleContent).
  reflexivity.
Defined.

(** X2: every comment line is counted as a mixed line too, and every
    mixed line is a comment line or a code line:
    commentLines <= codeAndCommentLines <= commentLines + lines. *)
Theorem mixed_between_comment_and_nonblank
    (fs : FileSystem) (filePath content : jsstring) :
  readFileSync fs filePath = Ok content ->
  exists m,
    getFileMetrics fs filePath = Ok m
    /\ FileMetrics.commentLines m <= FileMetrics.codeAndCommentLines m
    /\ FileMetrics.codeAndCommentLines m
       <= FileMetrics.commentLines m + FileMetrics.lines m.
Proof.
  intros H. exists (measure content).
  split; [apply getFileMetrics_read; exact H|]. unfold measure. simpl. split.
  - apply filter_length_imp. exact comment_is_mixed.
  - apply filter_length_or. exact mixed_is_comment_or_code.
Qed.

Lemma mixed_between_comment_and_nonblank_witness :
  exists m,
    getFileMetrics exampleFS (js "/r/a.js") = Ok m
    /\ FileMetrics.commentLines m <= FileMetrics.codeAndCommentLines m
    /\ FileMetrics.codeAndCommentLines m
       <= FileMetrics.commentLines m + FileMetrics.lines m.
Proof.
  apply (mixed_between_comment_and_nonblank exampleFS (js "/r/a.js") exampleContent).
  reflexivity.
Defined.

(** X3: [characters] is the sum of the lengths of the code lines, white
    space around them included, plus one separator between each two of
    them; without a code line it is 0. *)
Theorem characters_formula (fs : FileSystem) (filePath content : jsstring) :
  readFileSync fs filePath = Ok content ->
  exists m,
    getFileMetrics fs filePath = Ok m
    /\ FileMetrics.characters m
       = list_sum (map (@List.length N)
                     (filter nonCommentNonEmpty (JsString.split LF content)))
         + (FileMetrics.lines m - 1)
    /\ (FileMetrics.lines m = 0 -> FileMetrics.characters m = 0).
Proof.
  intros H. exists (measure content).
  split; [apply getFileMetrics_read; exact H|]. unfold measure. simpl.
  unfold JsString.length. rewrite join_length. split; [reflexivity|].
  intros H0. apply length_zero_iff_nil in H0. rewrite H0. reflexivity.
Qed.

Lemma characters_formula_witness :
  exists m,
    getFileMetrics exampleFS (js "/r/a.js") = Ok m
    /\ FileMetrics.characters m
       = list_sum (map (@List.length N)
                     (filter nonCommentNonEmpty (JsString.split LF exampleContent)))
         + (FileMetrics.lines m - 1)
    /\ (FileMetrics.lines m = 0 -> FileMetrics.characters m = 0).
Proof.
  apply (characters_formula exampleFS (js "/r/a.js") exampleContent).
  reflexivity.
Defined.

(** X4: [characters] is at most the length of the file, and at least
    twice the number of code lines less one (a code line is not empty),
    so never less than the number of code lines. *)
Theorem characters_bounds (fs : FileSystem) (filePath content : jsstring) :
  readFileSync fs filePath = Ok content ->
  exists m,
    getFileMetrics fs filePath = Ok m
    /\ FileMetrics.characters m <= List.length content
    /\ 2 * FileMetrics.lines m <= FileMetrics.characters m + 1
    /\ FileMetrics.lines m <= FileMetrics.characters m.
Proof.
  intros H. exists (measure content).
  split; [apply getFileMetrics_read; exact H|]. unfold measure. simpl.
  unfold JsString.length. rewrite join_length.
  pose proof (filter_sum_le nonCommentNonEmpty (@List.length N)
                (JsString.split LF content)) as [Hsum Hlen].
  pose proof (filter_sum_ge nonCommentNonEmpty (@List.length N)
                (JsString.split LF content) code_line_nonempty) as Hge.
  pose proof (join_length LF (JsString.split LF content)) as Hall.
  rewrite join_split in Hall.
  unfold list_sum, jsstring, JsString.t in *.
  split; [|split]; lia.
Qed.

Lemma characters_bounds_witness :
  exists m,
    getFileMetrics exampleFS (js "/r/a.js") = Ok m
    /\ FileMetrics.characters m <= List.length exampleContent
    /\ 2 * FileMetrics.lines m <= FileMetrics.characters m + 1
    /\ FileMetrics.lines m <= FileMetrics.characters m.
Proof.
  apply (characters_bounds exampleFS (js "/r/a.js") exampleContent).
  reflexivity.
Defined.

(** X5: a line is counted as blank exactly when it holds nothing but
    white space (a lone carriage return, spaces, tabs), the empty line
    included. *)
Theorem blank_is_white_space_only (line : jsstring) :
  isBlankLine line = true <-> forallb JsString.isWhiteSpace line = true.
Proof.
  rewrite isBlankLine_spec. unfold BlankClassified. apply trim_blank.
Qed.

(** X6: white space before and after a line (indentation, the carriage
    return of a CRLF ending) changes none of its four classifications. *)
Theorem padding_keeps_classes (before line after : jsstring) :
  forallb JsString.isWhiteSpace before = true ->
  forallb JsString.isWhiteSpace after = true ->
  nonCommentNonEmpty (before ++ line ++ after) = nonCommentNonEmpty line
  /\ isCommentLine (before ++ line ++ after) = isCommentLine line
  /\ isBlankLine (before ++ line ++ after) = isBlankLine line
  /\ isCodeAndCommentLine (before ++ line ++ after) = isCodeAndCommentLine line.
Proof.
  intros Hb Ha.
  unfold nonCommentNonEmpty, isCommentLine, isBlankLine, isCodeAndCommentLine.
  cbv zeta. rewrite (trim_padding before line after Hb Ha).
  repeat split.
Qed.

Lemma padding_keeps_classes_witness :
  nonCommentNonEmpty (js "    " ++ exampleLine2 ++ [13%N]) = nonCommentNonEmpty exampleLine2
  /\ isCommentLine (js "    " ++ exampleLine2 ++ [13%N]) = isCommentLine exampleLine2
  /\ isBlankLine (js "    " ++ exampleLine2 ++ [13%N]) = isBlankLine exampleLine2
  /\ isCodeAndCommentLine (js "    " ++ exampleLine2 ++ [13%N])
     = isCodeAndCommentLine exampleLine2.
Proof.
  apply (padding_keeps_classes (js "    ") exampleLine2 [13%N]); reflexivity.
Defined.

(* ===================================================================== *)
(** ** More on [processDirectory] *)
(* ===================================================================== *)

Lemma isValidFile_ignored (path : PathModule) (p x : jsstring) :
  In x defaultIgnoreDirs -> Contains p x -> isValidFile path p = false.
Proof.
  intros Hx Hc. unfold isValidFile. cbv zeta. apply andb_false_intro2.
  apply negb_false_iff. apply existsb_exists. exists x.
  split; [exact Hx | apply includes_spec; exact Hc].
Qed.

Lemma flat_map_nil {A B : Type} (g : A -> list B) (l : list A) :
  (forall a, In a l -> g a = []) -> flat_map g l = [].
Proof.
  induction l as [|a l IH]; intros H; [reflexivity|].
  simpl. rewrite (H a (or_introl eq_refl)). apply IH.
  intros b Hb. apply H. right. exact Hb.
Qed.

Lemma ignored_subtree (path : PathModule) (x : jsstring) :
  In x defaultIgnoreDirs ->
  forall t p,
    Contains p x ->
    (forall q es name c,
        occurs path p t q (Dir es) -> In (name, c) es ->
        Contains q x -> Contains (pjoin path q name) x) ->
    inScopeMetrics path p t = [].
Proof.
  intros Hx.
  induction t as [e | | c | e | es IH | e] using node_induction;
    intros p Hp Hjoin; simpl; try reflexivity.
  - rewrite (isValidFile_ignored path p x Hx Hp). reflexivity.
  - apply flat_map_nil. intros [n c] Ha. rewrite Forall_forall in IH.
    apply (IH (n, c) Ha).
    + apply (Hjoin p es n c); [constructor | exact Ha | exact Hp].
    + intros q es' name c' Hocc Hin Hq.
      apply (Hjoin q es' name c'); [|exact Hin|exact Hq].
      apply occurs_below with (n := n) (c := c); assumption.
Qed.

Lemma sum_part {A B : Type} (g : A -> list B) (f : B -> nat) (l : list A) (a : A) :
  In a l -> list_sum (map f (g a)) <= list_sum (map f (flat_map g l)).
Proof.
  induction l as [|b l IH]; intros H; [contradiction|].
  simpl. rewrite map_app, list_sum_app. destruct H as [-> | H].
  - lia.
  - specialize (IH H). lia.
Qed.

Lemma length_part {A B : Type} (g : A -> list B) (l : list A) (a : A) :
  In a l -> List.length (g a) <= List.length (flat_map g l).
Proof.
  induction l as [|b l IH]; intros H; [contradiction|].
  simpl. rewrite length_app. destruct H as [-> | H].
  - lia.
  - specialize (IH H). lia.
Qed.

Lemma sum_member {A : Type} (h : A -> nat) (l : list A) (a : A) :
  In a l -> h a <= list_sum (map h l).
Proof.
  induction l as [|b l IH]; intros H; [contradiction|].
  simpl. destruct H as [-> | H].
  - lia.
  - specialize (IH H). lia.
Qed.

Lemma firstError_raises (path : PathModule) (t : node) :
  forall p e, firstError path p t = Some e ->
  exists q u, occurs path p t q u /\ raises path q u e.
Proof.
  induction t as [e' | | c | e' | es IH | e'] using node_induction;
    intros p e H; simpl in H; try discriminate.
  - injection H as <-. exists p, (Unstatable e'). split; [constructor | reflexivity].
  - exists p, (UnreadableFile e'). split; [constructor|].
    simpl. destruct (isValidFile path p); [|discriminate].
    injection H as <-. split; reflexivity.
  - apply firstOf_Some in H. destruct H as [[n c] [Hin Hc]].
    rewrite Forall_forall in IH.
    destruct (IH (n, c) Hin _ _ Hc) as [q [u [Hocc Hr]]].
    exists q, u. split; [|exact Hr].
    apply occurs_below with (n := n) (c := c); assumption.
  - injection H as <-. exists p, (UnlistableDir e'). split; [constructor | reflexivity].
Qed.

(** What [getFileMetrics] returns is well formed on its own. *)
Lemma measure_facts (content : jsstring) :
  FileMetrics.commentLines (measure content)
  <= FileMetrics.codeAndCommentLines (measure content)
  /\ FileMetrics.codeAndCommentLines (measure content)
     <= FileMetrics.commentLines (measure content) + FileMetrics.lines (measure content)
  /\ FileMetrics.lines (measure content) <= FileMetrics.characters (measure content)
  /\ 1 <= FileMetrics.blankLines (measure content)
          + FileMetrics.commentLines (measure content)
          + FileMetrics.lines (measure content).
Proof.
  unfold measure. simpl. unfold JsString.length. rewrite join_length.
  pose proof (filter_sum_ge nonCommentNonEmpty (@List.length N)
                (JsString.split LF content) code_line_nonempty) as Hge.
  pose proof (filter_three_way isBlankLine isCommentLine nonCommentNonEmpty
                (JsString.split LF content) one_class) as Hall.
  pose proof (split_length LF content) as Hlen.
  pose proof (filter_length_imp isCommentLine isCodeAndCommentLine
                (JsString.split LF content) comment_is_mixed) as H1.
  pose proof (filter_length_or isCodeAndCommentLine isCommentLine nonCommentNonEmpty
                (JsString.split LF content) mixed_is_comment_or_code) as H2.
  unfold list_sum, jsstring, JsString.t in *.
  split; [|split; [|split]]; lia.
Qed.

Lemma getFileMetrics_measure (fs : FileSystem) (filePath : jsstring) (m : FileMetrics.t) :
  getFileMetrics fs filePath = Ok m -> exists content, m = measure content.
Proof.
  unfold getFileMetrics. destruct (readFileSync fs filePath) as [c | e |];
    simpl; try discriminate.
  intros H. injection H as <-. exists c. reflexivity.
Qed.

Lemma forEach_invariant {S A : Type} (P : S -> Prop)
    (body : S -> A -> result S) (xs : list A) :
  (forall s x s', In x xs -> P s -> body s x = Ok s' -> P s') ->
  forall s s', P s -> forEach body xs s = Ok s' -> P s'.
Proof.
  induction xs as [|x xs IH]; intros Hbody s s' Hs H; simpl in H.
  - injection H as <-. exact Hs.
  - destruct (body s x) as [s1 | e |] eqn:Hx; simpl in H; try discriminate.
    apply (IH (fun s0 y s0' Hy => Hbody s0 y s0' (or_intror Hy)) s1 s');
      [|exact H].
    apply (Hbody s x s1 (or_introl eq_refl) Hs Hx).
Qed.

Lemma wellFormed_zero : wellFormed Aggregate.zero.
Proof. unfold wellFormed. simpl. repeat split; lia. Qed.

Lemma processDirectory_wellFormed (path : PathModule) (fs : FileSystem) (fuel : nat) :
  forall dir a, processDirectory path fs fuel dir = Ok a -> wellFormed a.
Proof.
  induction fuel as [|fuel IH]; intros dir a H; simpl in H; [discriminate|].
  destruct (readdirSync fs dir) as [names | e |]; simpl in H; try discriminate.
  apply (forEach_invariant wellFormed
           (visitEntry path fs (processDirectory path fs fuel) dir) names)
    with (s := Aggregate.zero); [|exact wellFormed_zero|exact H].
  intros acc file acc' _ Hacc Hvisit. unfold visitEntry in Hvisit. cbv zeta in Hvisit.
  destruct (lstatSync fs (pjoin path dir file)) as [st | e |];
    simpl in Hvisit; try discriminate.
  destruct (isSymbolicLink st); [injection Hvisit as <-; exact Hacc|].
  destruct (isDirectory st).
  - destruct (processDirectory path fs fuel (pjoin path dir file)) as [sub | e |] eqn:Hsub;
      simpl in Hvisit; try discriminate.
    injection Hvisit as <-. pose proof (IH _ _ Hsub) as Hs.
    unfold wellFormed in *. simpl.
    destruct Hacc as (A1 & A2 & A3 & A4 & A5), Hs as (S1 & S2 & S3 & S4 & S5).
    split; [lia|]. split; [lia|]. split; [lia|]. split; [lia|].
    intros H0. assert (Ha : Aggregate.fileCount acc = 0) by lia.
    assert (Hb : Aggregate.fileCount sub = 0) by lia.
    specialize (A5 Ha). specialize (S5 Hb). lia.
  - destruct (isValidFile path (pjoin path dir file)).
    + destruct (getFileMetrics fs (pjoin path dir file)) as [m | e |] eqn:Hm;
        simpl in Hvisit; try discriminate.
      injection Hvisit as <-.
      destruct (getFileMetrics_measure fs _ m Hm) as [content ->].
      pose proof (measure_facts content) as (M1 & M2 & M3 & M4).
      unfold wellFormed in *. simpl in *.
      destruct Hacc as (A1 & A2 & A3 & A4 & A5).
      split; [lia|]. split; [lia|]. split; [lia|]. split; [lia|].
      intros H0. lia.
    + injection Hvisit as <-. exact Hacc.
Qed.

Lemma posix_join_contains (x d f : jsstring) :
  Contains d x -> Contains (pjoin posix d f) x.
Proof.
  intros [a [b H]]. exists a, (b ++ 47%N :: f). simpl. rewrite H.
  rewrite <- !app_assoc. reflexivity.
Qed.

Lemma distFS_tree : representsRoot posix distFS (js "/dist-tools") distTree.
Proof. split; [reflexivity | show_tree]. Qed.

Lemma visitEntry_skipped (path : PathModule) (fs : FileSystem)
    (recur : jsstring -> result Aggregate.t) (dir : jsstring)
    (acc : Aggregate.t) (file : jsstring) (st : Stats) :
  lstatSync fs (pjoin path dir file) = Ok st ->
  isSymbolicLink st = true
  \/ (isDirectory st = false /\ isValidFile path (pjoin path dir file) = false) ->
  visitEntry path fs recur dir acc file = Ok acc.
Proof.
  intros Hst Hkind. unfold visitEntry. cbv zeta. rewrite Hst. simpl bind.
  destruct Hkind as [-> | [-> ->]]; [reflexivity|].
  destruct (isSymbolicLink st); reflexivity.
Qed.

(** X7: a directory that holds nothing but links and files out of scope
    (or nothing at all) gives the aggregate of zeros. *)
Theorem nothing_to_count
    (path : PathModule) (fs : FileSystem) (fuel : nat) (dir : jsstring)
    (names : list jsstring) :
  readdirSync fs dir = Ok names ->
  (forall name, In name names ->
     exists st, lstatSync fs (pjoin path dir name) = Ok st
       /\ (isSymbolicLink st = true
           \/ (isDirectory st = false
               /\ isValidFile path (pjoin path dir name) = false))) ->
  processDirectory path fs (S fuel) dir = Ok Aggregate.zero.
Proof.
  intros Hls Hall. simpl. rewrite Hls. simpl bind. clear Hls.
  generalize Aggregate.zero.
  induction names as [|name names IH]; intros acc; [reflexivity|].
  simpl. destruct (Hall name (or_introl eq_refl)) as [st [Hst Hkind]].
  rewrite (visitEntry_skipped path fs _ dir acc name st Hst Hkind).
  simpl bind. apply IH.
  intros n Hn. apply Hall. right. exact Hn.
Qed.

Lemma nothing_to_count_witness :
  processDirectory posix projectFS 1 (js "/p/node_modules") = Ok Aggregate.zero.
Proof.
  apply (nothing_to_count posix projectFS 0 (js "/p/node_modules") [js "x.js"]).
  - reflexivity.
  - intros name [<- | []]. exists {| mode := S_IFREG |}.
    split; [reflexivity|]. right. split; reflexivity.
Defined.

(** X8: when the path of the root holds an ignored name as a substring,
    and the path of each listed entry, made by [path.join] from the path
    of its directory and its name, still holds it (as it does when the
    joined path starts with the directory's), no file of the tree is in
    scope: every sum and [fileCount] are 0, while the subdirectories are
    walked and counted all the same. *)
Theorem ignored_root_counts_no_file
    (path : PathModule) (fs : FileSystem) (dir x : jsstring) (t : node) (fuel : nat) :
  In x defaultIgnoreDirs ->
  Contains dir x ->
  (forall q es name c,
      occurs path dir t q (Dir es) -> In (name, c) es ->
      Contains q x -> Contains (pjoin path q name) x) ->
  representsRoot path fs dir t ->
  faultless path dir t ->
  height t <= fuel ->
  processDirectory path fs fuel dir
  = Ok {| Aggregate.totalLines := 0; Aggregate.totalCharacters := 0;
          Aggregate.commentLines := 0; Aggregate.blankLines := 0;
          Aggregate.codeAndCommentLines := 0; Aggregate.fileCount := 0;
          Aggregate.directoryCount := subdirectories t |}.
Proof.
  intros Hx Hdir Hjoin Hrep Hok Hfuel. unfold faultless in Hok.
  rewrite (processDirectory_root path fs dir t fuel Hrep Hfuel), Hok.
  rewrite (ignored_subtree path x Hx t dir Hdir Hjoin). reflexivity.
Qed.

Lemma ignored_root_counts_no_file_witness :
  processDirectory posix distFS 2 (js "/dist-tools")
  = Ok {| Aggregate.totalLines := 0; Aggregate.totalCharacters := 0;
          Aggregate.commentLines := 0; Aggregate.blankLines := 0;
          Aggregate.codeAndCommentLines := 0; Aggregate.fileCount := 0;
          Aggregate.directoryCount := subdirectories distTree |}.
Proof.
  apply (ignored_root_counts_no_file posix distFS (js "/dist-tools") (js "dist")
           distTree 2).
  - right. left. reflexivity.
  - exists (js "/"), (js "-tools"). reflexivity.
  - intros q es name c _ _ Hq. apply posix_join_contains. exact Hq.
  - exact distFS_tree.
  - reflexivity.
  - vm_compute. lia.
Defined.

(** X9: the totals of a directory are at least those of each of its
    subdirectories, walked on its own, and it counts at least one
    directory more. *)
Theorem parent_dominates_child
    (path : PathModule) (fs : FileSystem) (dir name : jsstring)
    (es es' : list (jsstring * node)) (fuel : nat) :
  representsRoot path fs dir (Dir es) ->
  faultless path dir (Dir es) ->
  height (Dir es) <= fuel ->
  In (name, Dir es') es ->
  exists a b,
    processDirectory path fs fuel dir = Ok a
    /\ processDirectory path fs fuel (pjoin path dir name) = Ok b
    /\ Aggregate.totalLines b <= Aggregate.totalLines a
    /\ Aggregate.totalCharacters b <= Aggregate.totalCharacters a
    /\ Aggregate.commentLines b <= Aggregate.commentLines a
    /\ Aggregate.blankLines b <= Aggregate.blankLines a
    /\ Aggregate.codeAndCommentLines b <= Aggregate.codeAndCommentLines a
    /\ Aggregate.fileCount b <= Aggregate.fileCount a
    /\ Aggregate.directoryCount b + 1 <= Aggregate.directoryCount a.
Proof.
  intros Hrep Hok Hfuel Hin. unfold faultless in Hok.
  rewrite (processDirectory_root path fs dir (Dir es) fuel Hrep Hfuel), Hok.
  destruct Hrep as [_ Hes]. rewrite Forall_forall in Hes.
  pose proof (Hes _ Hin) as Hchild. simpl in Hchild.
  pose proof Hok as Hnone. simpl in Hnone. rewrite firstOf_None in Hnone.
  specialize (Hnone _ Hin). simpl in Hnone.
  assert (Hroot : representsRoot path fs (pjoin path dir name) (Dir es')).
  { inversion Hchild; subst. split; assumption. }
  assert (Hheight : height (Dir es') <= fuel).
  { simpl in Hfuel.
    pose proof (height_entries es (list_max (map (fun e => height (snd e)) es))
                  (le_n _) _ Hin) as Hc.
    simpl in Hc. simpl. lia. }
  rewrite (processDirectory_root path fs _ (Dir es') fuel Hroot Hheight).
  change (firstError path (pjoin path dir name) (Dir es'))
    with (firstOf (fun e => firstError path (pjoin path (pjoin path dir name) (fst e)) (snd e)) es').
  rewrite Hnone.
  eexists. eexists. split; [reflexivity|]. split; [reflexivity|].
  set (g := fun e : jsstring * node =>
              inScopeMetrics path (pjoin path dir (fst e)) (snd e)).
  change (inScopeMetrics path dir (Dir es)) with (flat_map g es).
  change (inScopeMetrics path (pjoin path dir name) (Dir es'))
    with (g (name, Dir es')).
  unfold totalsOf. cbn [Aggregate.totalLines Aggregate.totalCharacters
    Aggregate.commentLines Aggregate.blankLines Aggregate.codeAndCommentLines
    Aggregate.fileCount Aggregate.directoryCount].
  repeat (split; [apply sum_part; exact Hin|]).
  split; [apply length_part; exact Hin|].
  pose proof (sum_member (fun e => dirsIn (snd e)) es _ Hin) as Hd.
  cbn [subdirectories]. simpl in Hd. lia.
Qed.

Lemma parent_dominates_child_witness :
  exists a b,
    processDirectory posix projectFS 3 (js "/p") = Ok a
    /\ processDirectory posix projectFS 3 (pjoin posix (js "/p") (js "src")) = Ok b
    /\ Aggregate.totalLines b <= Aggregate.totalLines a
    /\ Aggregate.totalCharacters b <= Aggregate.totalCharacters a
    /\ Aggregate.commentLines b <= Aggregate.commentLines a
    /\ Aggregate.blankLines b <= Aggregate.blankLines a
    /\ Aggregate.codeAndCommentLines b <= Aggregate.codeAndCommentLines a
    /\ Aggregate.fileCount b <= Aggregate.fileCount a
    /\ Aggregate.directoryCount b + 1 <= Aggregate.directoryCount a.
Proof.
  apply (parent_dominates_child posix projectFS (js "/p") (js "src")
           [(js "a.js", File exampleContent);
            (js "README.md", File (js "# notes"));
            (js "old", Symlink);
            (js "node_modules", Dir [(js "x.js", File (js "let y;"))]);
            (js "src", Dir [(js "b.ts", File (js "let z = 2;"));
                            (js "deep", Dir [])])]
           [(js "b.ts", File (js "let z = 2;")); (js "deep", Dir [])] 3).
  - exact projectFS_tree.
  - reflexivity.
  - vm_compute. lia.
  - do 4 right. left. reflexivity.
Defined.

(** X10: an error is passed on as it is: the error that
    [processDirectory] throws is the one that [lstatSync], [readdirSync]
    or [readFileSync] raised on an entry of the tree. *)
Theorem thrown_error_comes_from_a_call
    (path : PathModule) (fs : FileSystem) (dir : jsstring) (t : node)
    (fuel : nat) (e : error) :
  representsRoot path fs dir t ->
  height t <= fuel ->
  processDirectory path fs fuel dir = Throw e ->
  exists q u, occurs path dir t q u /\ raises path q u e.
Proof.
  intros Hrep Hfuel H.
  rewrite (processDirectory_root path fs dir t fuel Hrep Hfuel) in H.
  destruct (firstError path dir t) as [e'|] eqn:Hfirst; [|discriminate].
  injection H as ->. apply firstError_raises. exact Hfirst.
Qed.

Lemma thrown_error_comes_from_a_call_witness :
  exists q u,
    occurs posix (js "/r") unsearchableTree q u /\ raises posix q u EACCES.
Proof.
  apply (thrown_error_comes_from_a_call posix unsearchableFS (js "/r")
           unsearchableTree 1 EACCES).
  - exact unsearchableFS_tree.
  - vm_compute. lia.
  - reflexivity.
Defined.

(** X11: whatever the file system, an aggregate that [processDirectory]
    returns is well formed: commentLines <= codeAndCommentLines <=
    commentLines + totalLines; totalLines <= totalCharacters; every
    counted file brought at least one line; and when [fileCount] is 0
    the five sums are 0. *)
Theorem returned_aggregate_is_wellFormed
    (path : PathModule) (fs : FileSystem) (fuel : nat) (dir : jsstring)
    (a : Aggregate.t) :
  processDirectory path fs fuel dir = Ok a -> wellFormed a.
Proof. apply processDirectory_wellFormed. Qed.

Lemma returned_aggregate_is_wellFormed_witness :
  wellFormed (Aggregate.Build_t 3 50 1 2 2 2 3).
Proof.
  apply (returned_aggregate_is_wellFormed posix projectFS 3 (js "/p")).
  reflexivity.
Defined.

(* ===================================================================== *)
(** ** The driver *)
(* ===================================================================== *)

Section DriverFacts.

Variable path : PathModule.
Variable resolve : jsstring -> jsstring.
Variable fs : FileSystem.
Variable fuel : nat.
Variable dirname : jsstring.

Lemma report_no_help (folder dir : jsstring) (console : list output) :
  ~ In Help console -> ~ In Help (fst (report path fs fuel folder dir console)).
Proof.
  intros H. unfold report.
  destruct (processDirectory path fs fuel dir); simpl; try exact H.
  rewrite in_app_iff. intros [Hin | [Heq | []]]; [exact (H Hin) | discriminate].
Qed.

End DriverFacts.

Lemma andThen_no_help (f g : step) :
  (forall c, ~ In Help c -> ~ In Help (fst (f c))) ->
  (forall c, ~ In Help c -> ~ In Help (fst (g c))) ->
  forall c, ~ In Help c -> ~ In Help (fst (andThen f g c)).
Proof.
  intros Hf Hg c Hc. unfold andThen. specialize (Hf c Hc).
  destruct (f c) as [c' [u | e |]]; simpl in *;
    [apply Hg; exact Hf | exact Hf | exact Hf].
Qed.

(** X12: without a flag the program writes the usage text and nothing
    else, and touches no file; an empty [--dir] argument counts as no
    flag. *)
Theorem no_flag_prints_help
    (path : PathModule) (resolve : jsstring -> jsstring) (fs : FileSystem)
    (fuel : nat) (dirname : jsstring) (d : option jsstring) :
  given d = false ->
  main path resolve fs fuel dirname
    {| Options.root := false; Options.src := false; Options.all := false;
       Options.dir := d |}
  = ([Help], Ok tt).
Proof.
  intros H. unfold main, andThen. simpl.
  destruct d as [[|c s]|]; simpl in *; try discriminate; reflexivity.
Qed.

Lemma no_flag_prints_help_witness :
  main posix resolveAbsolute emptyDisk 0 (js "/r") optionsEmptyDir
  = ([Help], Ok tt).
Proof.
  apply (no_flag_prints_help posix resolveAbsolute emptyDisk 0 (js "/r") (Some [])).
  reflexivity.
Defined.

(** X13: the usage text never comes with a table: when it is written it
    is all that is written, and no flag was given. *)
Theorem help_excludes_tables
    (path : PathModule) (resolve : jsstring -> jsstring) (fs : FileSystem)
    (fuel : nat) (dirname : jsstring) (options : Options.t) :
  In Help (fst (main path resolve fs fuel dirname options)) ->
  fst (main path resolve fs fuel dirname options) = [Help]
  /\ Options.root options = false /\ Options.src options = false
  /\ Options.all options = false /\ given (Options.dir options) = false.
Proof.
  destruct options as [r s a d]. intros H.
  destruct (r || (s || (a || given d))) eqn:Hflags.
  - exfalso. revert H. unfold main.
    cbn [Options.root Options.src Options.all Options.dir].
    replace (negb r && negb s && negb a && negb (given d)) with false
      by (destruct r, s, a, (given d); simpl in *; congruence).
    apply andThen_no_help; [| | intros []].
    + intros c Hc. destruct (r || a); [apply report_no_help|]; exact Hc.
    + apply andThen_no_help.
      * intros c Hc. destruct (s || a); [apply report_no_help|]; exact Hc.
      * apply andThen_no_help; [|intros c Hc; exact Hc].
        intros c Hc. destruct d as [d0|]; [|exact Hc].
        destruct (JsString.truthy d0); [apply report_no_help|]; exact Hc.
  - destruct r, s, a; simpl in Hflags; try discriminate.
    destruct d as [[|c0 d0]|]; simpl in Hflags; try discriminate;
      repeat split; reflexivity.
Qed.

Lemma help_excludes_tables_witness :
  fst (main posix resolveAbsolute emptyDisk 0 (js "/r") optionsEmptyDir) = [Help]
  /\ Options.root optionsEmptyDir = false /\ Options.src optionsEmptyDir = false
  /\ Options.all optionsEmptyDir = false
  /\ given (Options.dir optionsEmptyDir) = false.
Proof.
  apply (help_excludes_tables posix resolveAbsolute emptyDisk 0 (js "/r")
           optionsEmptyDir).
  left. reflexivity.
Defined.

(** X14: [--all] is [--root] and [--src] together, whatever these two
    flags are beside it: the same tables in the same order, the same
    end. *)
Theorem all_is_root_and_src
    (path : PathModule) (resolve : jsstring -> jsstring) (fs : FileSystem)
    (fuel : nat) (dirname : jsstring) (r s : bool) (d : option jsstring) :
  main path resolve fs fuel dirname
    {| Options.root := r; Options.src := s; Options.all := true;
       Options.dir := d |}
  = main path resolve fs fuel dirname
      {| Options.root := true; Options.src := true; Options.all := false;
         Options.dir := d |}.
Proof.
  unfold main. cbn [Options.root Options.src Options.all Options.dir].
  rewrite !orb_true_r. destruct r, s; reflexivity.
Qed.

(** X15: the first walk that throws ends the program: when the walk of
    the root is asked for and throws, nothing has been written, and
    neither [src] nor the [--dir] directory is walked. *)
Theorem root_failure_ends_the_run
    (path : PathModule) (resolve : jsstring -> jsstring) (fs : FileSystem)
    (fuel : nat) (dirname : jsstring) (options : Options.t) (e : error) :
  Options.root options || Options.all options = true ->
  processDirectory path fs fuel (resolve dirname) = Throw e ->
  main path resolve fs fuel dirname options = ([], Throw e).
Proof.
  intros Hflag Hroot. unfold main, andThen. rewrite Hflag.
  unfold report at 1. rewrite Hroot. reflexivity.
Qed.

Lemma root_failure_ends_the_run_witness :
  main posix resolveAbsolute emptyDisk 3 (js "/r") optionsAll = ([], Throw ENOENT).
Proof.
  apply (root_failure_ends_the_run posix resolveAbsolute emptyDisk 3 (js "/r")
           optionsAll ENOENT); reflexivity.
Defined.

(** X16: when the root is walked and [src] is asked for but its walk
    throws (a root without a [src] directory), the table of the root
    has been written, it is the only one, and the program ends with the
    error. *)
Theorem src_failure_after_root_table
    (path : PathModule) (resolve : jsstring -> jsstring) (fs : FileSystem)
    (fuel : nat) (dirname : jsstring) (options : Options.t)
    (metrics : Aggregate.t) (e : error) :
  Options.root options || Options.all options = true ->
  Options.src options || Options.all options = true ->
  processDirectory path fs fuel (resolve dirname) = Ok metrics ->
  processDirectory path fs fuel (pjoin path (resolve dirname) (js "src")) = Throw e ->
  main path resolve fs fuel dirname options
  = ([printMetrics (js "Root") metrics], Throw e).
Proof.
  intros Hroot Hsrc Hr Hs. unfold main, andThen. rewrite Hroot, Hsrc.
  unfold report at 1. rewrite Hr.
  unfold report at 1. rewrite Hs. reflexivity.
Qed.

Lemma src_failure_after_root_table_witness :
  main posix resolveAbsolute exampleFS 3 (js "/r") optionsAll
  = ([printMetrics (js "Root") (Aggregate.Build_t 2 40 1 2 2 1 0)], Throw ENOENT).
Proof.
  apply (src_failure_after_root_table posix resolveAbsolute exampleFS 3 (js "/r")
           optionsAll (Aggregate.Build_t 2 40 1 2 2 1 0) ENOENT); reflexivity.
Defined.
